(** * BatchMe: the UPC barcode batch generator (barcode_generator.py)

    A shallow embedding of [UPCBarcodeGenerator] ([clean_upc],
    [generate_barcode], [generate_batch]) and of [cli_mode], followed by
    the properties the specification states about them.

    Python strings are sequences of Unicode code points and are modelled
    as lists of code points.  The program's effects (what it prints, the
    calls it makes to the python-barcode library and to the file system,
    the exceptions it raises and catches) are threaded through a small
    state-and-exception monad.  Printing and creating the output directory
    are taken to succeed; the library may raise any [Exception]. *)

From Stdlib Require Import Ascii String DecimalString DecimalPos DecimalZ.
From Stdlib Require Import Bool Arith ZArith NArith Lia.
From Stdlib Require Import List Sorting.Sorted.
Import ListNotations.

(** ** Strings *)

(** A character is a Unicode code point; a Python [str] is a list of them. *)
Definition char := N.
Definition str := list char.

(** An ASCII literal of the source, as a [str]. *)
Definition lit (s : string) : str := map N_of_ascii (list_ascii_of_string s).

(** [str(n)] and [f"{n}"] for an [int]: decimal, with a minus sign when negative. *)
Definition str_of_Z (z : Z) : str := lit (NilZero.string_of_int (Z.to_int z)).

(** [len(s)], of a [str] or a [list], is a non-negative [int]. *)
Definition len {A} (s : list A) : Z := Z.of_nat (length s).

(** [f"{z:04d}"]: sign-aware zero padding to a minimum width of 4. *)
Definition format_04d (z : Z) : str :=
  let sign := if (z <? 0)%Z then lit "-" else [] in
  let digits := str_of_Z (Z.abs z) in
  sign ++ repeat 48%N (4 - length sign - length digits) ++ digits.

(** [c.isspace()], the characters [str.strip()] removes: the code points
    CPython's [_PyUnicode_IsWhitespace] accepts. *)
Definition isspace (c : char) : bool :=
  ((9 <=? c) && (c <=? 13) || (28 <=? c) && (c <=? 32) || (c =? 133) || (c =? 160)
   || (c =? 5760) || (8192 <=? c) && (c <=? 8202) || (c =? 8232) || (c =? 8233)
   || (c =? 8239) || (c =? 8287) || (c =? 12288))%N.

Fixpoint lstrip (s : str) : str :=
  match s with
  | [] => []
  | c :: s' => if isspace c then lstrip s' else s
  end.

Definition rstrip (s : str) : str := rev (lstrip (rev s)).

(** [s.strip()] *)
Definition strip (s : str) : str := lstrip (rstrip s).

(** Truth value of a [str] or a [list]: the empty one is false. *)
Definition truthy {A} (s : list A) : bool :=
  match s with [] => false | _ :: _ => true end.

(** [''.join(parts)] *)
Definition join_empty (parts : list str) : str := concat parts.

(** ** The Python runtime and the python-barcode library

    Neither is code of this repository; the program only calls them.
    What the program relies on is collected in two interfaces. *)

(** Exceptions deriving from [Exception], with the text [str(e)] gives. *)
Record exn := Exn { exn_type : str; exn_str : str }.

Definition ValueError (msg : str) : exn := Exn (lit "ValueError") msg.

Class PyRuntime := {
  (** [c.isdigit()] for code points above U+00FF (the Unicode tables). *)
  isdigit_wide : char -> bool;
  (** [str(Path(d) / name)] *)
  path_join : str -> str -> str;
  (** [Path(d).absolute()], printed *)
  path_absolute : str -> str
}.

Class BarcodeLib := {
  barcode_class : Type;
  barcode_obj : Type;
  (** [barcode.get_barcode_class(name)] *)
  get_barcode_class : str -> exn + barcode_class;
  (** [cls(code, writer=ImageWriter())] *)
  barcode_new : barcode_class -> str -> exn + barcode_obj;
  (** [obj.save(path)]: the path of the file written *)
  barcode_save : barcode_obj -> str -> exn + str
}.

(** [c.isdigit()]: below U+0100 these are the ASCII digits and the
    superscripts two, three and one. *)
Definition isdigit `{PyRuntime} (c : char) : bool :=
  if (c <? 256)%N
  then ((48 <=? c) && (c <=? 57) || (c =? 178) || (c =? 179) || (c =? 185))%N
  else isdigit_wide c.

(** ** Effects *)

(** A call the program makes outside itself. *)
Inductive call :=
| Mkdir (dir : str)
| GetBarcodeClass (name : str)
| NewBarcode (code : str)
| Save (path : str).

Record World := mkWorld {
  stdout : list str;   (* one entry per print() *)
  stderr : list str;
  calls : list call    (* oldest first *)
}.

Definition empty_world : World := mkWorld [] [] [].

(** What a statement can raise: an [Exception], or one of the two
    [BaseException]s the program meets, which [except Exception] lets through. *)
Inductive raised :=
| Exc (e : exn)
| KeyboardInterrupt
| SystemExit (code : Z).

Definition M (A : Type) : Type := World -> (raised + A) * World.

Definition ret {A} (a : A) : M A := fun w => (inr a, w).

Definition bind {A B} (m : M A) (k : A -> M B) : M B :=
  fun w => match m w with
           | (inr a, w') => k a w'
           | (inl r, w') => (inl r, w')
           end.

Definition raise {A} (r : raised) : M A := fun w => (inl r, w).

Notation "x <- m ;; k" := (bind m (fun x => k))
  (at level 61, m at next level, right associativity).
Notation "m ;;; k" := (bind m (fun _ => k))
  (at level 61, right associativity).

(** [try: body  except Exception as e: handler(e)] *)
Definition try_except {A} (body : M A) (handler : exn -> M A) : M A :=
  fun w => match body w with
           | (inl (Exc e), w') => handler e w'
           | other => other
           end.

(** [try: body  except KeyboardInterrupt: handler] *)
Definition try_except_interrupt {A} (body : M A) (handler : M A) : M A :=
  fun w => match body w with
           | (inl KeyboardInterrupt, w') => handler w'
           | other => other
           end.

Definition print (text : str) : M unit :=
  fun w => (inr tt, mkWorld (stdout w ++ [text]) (stderr w) (calls w)).

Definition print_stderr (text : str) : M unit :=
  fun w => (inr tt, mkWorld (stdout w) (stderr w ++ [text]) (calls w)).

(** An answer of the library, as the result of the call that got it. *)
Definition result_of {A} (answer : exn + A) : raised + A :=
  match answer with
  | inr a => inr a
  | inl e => inl (Exc e)
  end.

(** An outside call: it is recorded, and its answer is returned or raised. *)
Definition extern {A} (c : call) (answer : exn + A) : M A :=
  fun w => (result_of answer, mkWorld (stdout w) (stderr w) (calls w ++ [c])).

(** [sys.exit(code)] *)
Definition sys_exit {A} (code : Z) : M A := raise (SystemExit code).

(** ** The program *)

(** Non-ASCII characters of the program's messages. *)
Definition newline : str := [10%N].
Definition check_mark : str := [10003%N].
Definition ballot_x : str := [10007%N].
Definition warning_sign : str := [9888%N].

(** [x in xs] for a list of integers *)
Definition in_list (x : Z) (xs : list Z) : bool := existsb (Z.eqb x) xs.

(** The object's only attribute is the output directory. *)
Record UPCBarcodeGenerator := { output_dir : str }.

Definition default_output_dir : str := lit "barcodes".

(** The object [UPCBarcodeGenerator()] constructs. *)
Definition default_generator : UPCBarcodeGenerator :=
  {| output_dir := default_output_dir |}.

(** Standard input as [for line in sys.stdin] sees it: the lines it yields,
    and whether the iteration then ends (end of input) or is interrupted. *)
Record Stdin := { stdin_lines : list str; stdin_interrupted : bool }.

Section Program.
Context {RT : PyRuntime} {BL : BarcodeLib}.

(** [__init__]: [Path(output_dir)], then [mkdir(exist_ok=True)], which is
    taken to succeed. *)
Definition init (dir : str) : M UPCBarcodeGenerator :=
  extern (Mkdir dir) (inr tt) ;;;
  ret {| output_dir := dir |}.

Definition clean_upc (upc : str) : str :=
  let cleaned := join_empty (map (fun c => [c]) (filter isdigit upc)) in
  cleaned.

Definition invalid_length_message (cleaned_upc : str) : str :=
  lit "Invalid UPC length: " ++ str_of_Z (len cleaned_upc)
      ++ lit " digits. Must be 8 or 12 digits.".

Definition generate_barcode (self : UPCBarcodeGenerator) (upc : str) (index : Z)
  : M str :=
  let cleaned_upc := clean_upc upc in
  if negb (in_list (len cleaned_upc) [8; 12]%Z)
  then raise (Exc (ValueError (invalid_length_message cleaned_upc)))
  else
    cls <- (if (len cleaned_upc =? 12)%Z
            then extern (GetBarcodeClass (lit "upca")) (get_barcode_class (lit "upca"))
            else extern (GetBarcodeClass (lit "upce")) (get_barcode_class (lit "upce"))) ;;
    let filename := format_04d index ++ lit "_" ++ cleaned_upc in
    let output_path := path_join (output_dir self) filename in
    upc_barcode <- extern (NewBarcode cleaned_upc) (barcode_new cls cleaned_upc) ;;
    full_path <- extern (Save output_path) (barcode_save upc_barcode output_path) ;;
    ret full_path.

Definition generated_message (index : Z) (upc_list : list str) (upc : str) : str :=
  check_mark ++ lit " Generated " ++ str_of_Z index ++ lit "/"
    ++ str_of_Z (len upc_list) ++ lit ": " ++ strip upc.

Definition error_message (upc : str) (e : exn) : str :=
  ballot_x ++ lit " Error generating barcode for '" ++ strip upc ++ lit "': "
    ++ exn_str e.

(** The two lists the loop of [generate_batch] appends to. *)
Record BatchState := { generated_files : list str; errors : list str }.

(** One iteration of the loop of [generate_batch]. *)
Definition batch_step (self : UPCBarcodeGenerator) (upc_list : list str)
  (index : Z) (upc : str) (st : BatchState) : M BatchState :=
  if negb (truthy (strip upc))
  then ret st
  else
    try_except
      (file_path <- generate_barcode self (strip upc) index ;;
       print (generated_message index upc_list upc) ;;;
       ret {| generated_files := generated_files st ++ [file_path];
              errors := errors st |})
      (fun e =>
         let error_msg := error_message upc e in
         print_stderr error_msg ;;;
         ret {| generated_files := generated_files st;
                errors := errors st ++ [error_msg] |}).

(** [for index, upc in enumerate(rest, start=index): ...] *)
Fixpoint batch_loop (self : UPCBarcodeGenerator) (upc_list : list str)
  (index : Z) (rest : list str) (st : BatchState) : M BatchState :=
  match rest with
  | [] => ret st
  | upc :: rest' =>
      st' <- batch_step self upc_list index upc st ;;
      batch_loop self upc_list (index + 1) rest' st'
  end.

Definition summary_message (st : BatchState) : str :=
  if truthy (errors st)
  then newline ++ warning_sign ++ lit " Completed with "
         ++ str_of_Z (len (errors st)) ++ lit " error(s)"
  else newline ++ check_mark ++ lit " Successfully generated "
         ++ str_of_Z (len (generated_files st)) ++ lit " barcodes!".

(** The loop of [generate_batch], from empty lists. *)
Definition run_batch (self : UPCBarcodeGenerator) (upc_list : list str)
  : M BatchState :=
  batch_loop self upc_list 1 upc_list {| generated_files := []; errors := [] |}.

Definition generate_batch (self : UPCBarcodeGenerator) (upc_list : list str)
  : M (list str) :=
  st <- run_batch self upc_list ;;
  print (summary_message st) ;;;
  print (newline ++ lit "Barcodes saved to: " ++ path_absolute (output_dir self)) ;;;
  ret (generated_files st).

(** [for line in sys.stdin: upc_list.append(line.strip())] *)
Fixpoint read_stdin (lines : list str) (interrupted : bool) (upc_list : list str)
  : M (list str) :=
  match lines with
  | [] => if interrupted then raise KeyboardInterrupt else ret upc_list
  | line :: lines' => read_stdin lines' interrupted (upc_list ++ [strip line])
  end.

Definition cli_mode (stdin : Stdin) : M unit :=
  print (repeat 61%N 60) ;;;
  print (lit "BatchMe - UPC Barcode Generator (CLI Mode)") ;;;
  print (repeat 61%N 60) ;;;
  print (newline ++ lit "Paste your UPC numbers below (one per line).") ;;;
  print (lit "Press Ctrl+D (Mac/Linux) or Ctrl+Z then Enter (Windows) when done."
           ++ newline) ;;;
  upc_list <- try_except_interrupt
                (read_stdin (stdin_lines stdin) (stdin_interrupted stdin) [])
                (print (newline ++ newline ++ lit "Operation cancelled.") ;;;
                 sys_exit 0) ;;
  if negb (truthy upc_list)
  then print (lit "No UPC numbers provided.") ;;; sys_exit 1
  else
    generator <- init default_output_dir ;;
    generate_batch generator upc_list ;;;
    ret tt.

End Program.

(** The status the interpreter ends with when [cli_mode] is the whole run:
    0 on return, the code given to [sys.exit], non-zero on anything uncaught. *)
Definition exit_status (r : raised + unit) : Z :=
  match r with
  | inr _ => 0
  | inl (SystemExit code) => code
  | inl _ => 1
  end.

(** ** A runtime and a library to run the program on

    Used to evaluate the program on concrete inputs: ASCII-only digit
    tables, POSIX paths, and a renderer that provides the classes [upca]
    and [upce], accepts every code and writes [path.png]. *)

Definition str_eqb (a b : str) : bool :=
  if list_eq_dec N.eq_dec a b then true else false.

#[local] Instance posix_runtime : PyRuntime := {|
  isdigit_wide := fun _ => false;
  path_join := fun d name => d ++ lit "/" ++ name;
  path_absolute := fun d => lit "/work/" ++ d
|}.

#[local] Instance png_renderer : BarcodeLib := {|
  barcode_class := str;
  barcode_obj := str * str;
  get_barcode_class := fun name =>
    if str_eqb name (lit "upca") || str_eqb name (lit "upce")
    then inr name
    else inl (Exn (lit "BarcodeNotFoundError") name);
  barcode_new := fun cls code => inr (cls, code);
  barcode_save := fun _ path => inr (path ++ lit ".png")
|}.

(** A renderer that has no class [upce]. *)
#[local] Instance upca_only_renderer : BarcodeLib := {|
  barcode_class := str;
  barcode_obj := str * str;
  get_barcode_class := fun name =>
    if str_eqb name (lit "upca")
    then inr name
    else inl (Exn (lit "BarcodeNotFoundError") name);
  barcode_new := fun cls code => inr (cls, code);
  barcode_save := fun _ path => inr (path ++ lit ".png")
|}.

(** ** What a run shows

    Observations on a run, in which the properties below are stated. *)

Definition class_requests (cs : list call) : list str :=
  flat_map (fun c => match c with GetBarcodeClass name => [name] | _ => [] end) cs.

Definition save_requests (cs : list call) : list str :=
  flat_map (fun c => match c with Save path => [path] | _ => [] end) cs.

(** The world once [text] is printed. *)
Definition after_print (text : str) (w : World) : World :=
  mkWorld (stdout w ++ [text]) (stderr w) (calls w).

(** The world once [cli_mode] has printed its five opening lines. *)
Definition opened (w : World) : World :=
  after_print (lit "Press Ctrl+D (Mac/Linux) or Ctrl+Z then Enter (Windows) when done."
                 ++ newline)
    (after_print (newline ++ lit "Paste your UPC numbers below (one per line).")
       (after_print (repeat 61%N 60)
          (after_print (lit "BatchMe - UPC Barcode Generator (CLI Mode)")
             (after_print (repeat 61%N 60) w)))).

(** The world once the output directory [dir] is made. *)
Definition after_mkdir (dir : str) (w : World) : World :=
  mkWorld (stdout w) (stderr w) (calls w ++ [Mkdir dir]).

(** A line of a batch that was not skipped: its 1-based position in the
    list, the line, and what [generate_barcode] answered. *)
Record Attempt := { position : Z; line : str; answer : raised + str }.

Section Observations.
Context {RT : PyRuntime} {BL : BarcodeLib}.

(** What the library answers when [code] is rendered to [path] with the
    class called [name]. *)
Definition render_with (name code path : str) : exn + str :=
  match get_barcode_class name with
  | inl e => inl e
  | inr cls =>
      match barcode_new cls code with
      | inl e => inl e
      | inr obj => barcode_save obj path
      end
  end.

(** What [generate_barcode] answers and which calls it makes; neither
    depends on the world it starts in (lemma [generate_barcode_run]). *)
Definition outcome (self : UPCBarcodeGenerator) (upc : str) (index : Z)
  : raised + str :=
  fst (generate_barcode self upc index empty_world).

Definition outcome_calls (self : UPCBarcodeGenerator) (upc : str) (index : Z)
  : list call :=
  calls (snd (generate_barcode self upc index empty_world)).

(** The attempts of a batch over [upc_list], whose first line has position
    [index]: every line that is not blank, in order. *)
Fixpoint attempts (self : UPCBarcodeGenerator) (index : Z) (upc_list : list str)
  : list Attempt :=
  match upc_list with
  | [] => []
  | upc :: rest =>
      (if truthy (strip upc)
       then [{| position := index; line := upc;
                answer := outcome self (strip upc) index |}]
       else [])
      ++ attempts self (index + 1) rest
  end.

Definition succeeded (t : Attempt) : bool :=
  match answer t with inr _ => true | inl _ => false end.

Definition successes (a : list Attempt) : list str :=
  flat_map (fun t => match answer t with inr path => [path] | inl _ => [] end) a.

Definition failures (a : list Attempt) : list str :=
  flat_map (fun t => match answer t with
                     | inl (Exc e) => [error_message (line t) e]
                     | _ => []
                     end) a.

Definition attempt_calls (self : UPCBarcodeGenerator) (a : list Attempt)
  : list call :=
  flat_map (fun t => outcome_calls self (strip (line t)) (position t)) a.

Definition progress (upc_list : list str) (a : list Attempt) : list str :=
  flat_map (fun t => match answer t with
                     | inr _ => [generated_message (position t) upc_list (line t)]
                     | inl _ => []
                     end) a.

(** What [generate_barcode] may ask of the library: the two classes,
    and codes of 8 or 12 digits. *)
Definition valid_call (c : call) : Prop :=
  match c with
  | Mkdir _ => False
  | GetBarcodeClass name => name = lit "upca" \/ name = lit "upce"
  | NewBarcode code =>
      forallb isdigit code = true /\ (len code = 8%Z \/ len code = 12%Z)
  | Save _ => True
  end.

(** The two lists, and the world, once the attempts [a] have been made. *)
Definition state_after (st : BatchState) (a : list Attempt) : BatchState :=
  {| generated_files := generated_files st ++ successes a;
     errors := errors st ++ failures a |}.

Definition world_after (self : UPCBarcodeGenerator) (upc_list : list str)
  (w : World) (a : list Attempt) : World :=
  mkWorld (stdout w ++ progress upc_list a)
          (stderr w ++ failures a)
          (calls w ++ attempt_calls self a).

End Observations.

(** ** The desktop form

    [gui_mode] builds a tkinter window and hands control to its event
    loop; what it computes is in the [Generate Barcodes] handler,
    [BarcodeGeneratorGUI.generate_barcodes], modelled here.  The text of
    the input box is the handler's input; what it does to the widgets, the
    dialogs it opens and the program it starts are recorded as events.
    The widget and dialog calls are taken to succeed; starting a program
    may fail. *)

(** [s.split(sep)] for a separator of one character. *)
Fixpoint split_on (sep : char) (s : str) : list str :=
  match s with
  | [] => [[]]
  | c :: s' =>
      if (c =? sep)%N then [] :: split_on sep s'
      else match split_on sep s' with
           | [] => [[c]]
           | piece :: pieces => (c :: piece) :: pieces
           end
  end.

(** [[line.strip() for line in text.split('\n') if line.strip()]] *)
Definition gui_upc_list (text : str) : list str :=
  map strip (filter (fun line => truthy (strip line)) (split_on 10%N text)).

Inductive GuiEvent :=
| ShowWarning (title message : str)
| ShowInfo (title message : str)
| ShowError (title message : str)
| GenerateButton (enabled : bool)
| StatusLabel (text colour : str)
| RootUpdate
| AskYesNo (title message : str)
| SubprocessCall (args : list str).

(** The desktop the form runs on: what the user answers to a yes/no
    dialog, and what [subprocess.call] gives. *)
Class Desktop := {
  askyesno : str -> str -> bool;
  subprocess_call : list str -> exn + Z
}.

(** The form's only attribute besides its widgets. *)
Record BarcodeGeneratorGUI := { gui_output_dir : str }.

Record Gui := mkGui { world : World; events : list GuiEvent }.

Definition G (A : Type) : Type := Gui -> (raised + A) * Gui.

Definition gret {A} (a : A) : G A := fun g => (inr a, g).

Definition gbind {A B} (m : G A) (k : A -> G B) : G B :=
  fun g => match m g with
           | (inr a, g') => k a g'
           | (inl r, g') => (inl r, g')
           end.

Notation "x <~ m ;; k" := (gbind m (fun x => k))
  (at level 61, m at next level, right associativity).
Notation "m ~;; k" := (gbind m (fun _ => k))
  (at level 61, right associativity).

(** A computation of the generator, run inside the form. *)
Definition lift {A} (m : M A) : G A :=
  fun g => let (r, w') := m (world g) in (r, mkGui w' (events g)).

Definition emit (e : GuiEvent) : G unit :=
  fun g => (inr tt, mkGui (world g) (events g ++ [e])).

(** [try: body  except Exception as e: handler(e)  finally: final] *)
Definition try_except_finally {A} (body : G A) (handler : exn -> G A)
  (final : G unit) : G A :=
  fun g =>
    let (r, g') := match body g with
                   | (inl (Exc e), g1) => handler e g1
                   | other => other
                   end in
    match final g' with
    | (inr _, g'') => (r, g'')
    | (inl r', g'') => (inl r', g'')
    end.

Section Form.
Context {RT : PyRuntime} {BL : BarcodeLib} {DT : Desktop}.

Definition success_status (generated_files : list str) : str :=
  check_mark ++ lit " Successfully generated " ++ str_of_Z (len generated_files)
    ++ lit " barcodes!".

Definition success_info (self : BarcodeGeneratorGUI) (generated_files : list str)
  : str :=
  lit "Generated " ++ str_of_Z (len generated_files) ++ lit " barcodes!"
    ++ newline ++ newline
    ++ lit "Location: " ++ path_absolute (gui_output_dir self)
    ++ newline ++ newline
    ++ lit "You can now drag and drop these images into your Numbers spreadsheet.".

Definition generate_barcodes (self : BarcodeGeneratorGUI) (text : str) : G unit :=
  let upc_list := gui_upc_list text in
  if negb (truthy upc_list)
  then emit (ShowWarning (lit "No Input") (lit "Please paste UPC numbers first."))
  else
    emit (GenerateButton false) ~;;
    emit (StatusLabel (lit "Generating barcodes...") (lit "orange")) ~;;
    emit RootUpdate ~;;
    try_except_finally
      (generator <~ lift (init (gui_output_dir self)) ;;
       generated_files <~ lift (generate_batch generator upc_list) ;;
       emit (StatusLabel (success_status generated_files) (lit "green")) ~;;
       emit (ShowInfo (lit "Success") (success_info self generated_files)) ~;;
       emit (AskYesNo (lit "Open Folder")
               (lit "Would you like to open the output folder?")) ~;;
       if askyesno (lit "Open Folder") (lit "Would you like to open the output folder?")
       then
         emit (SubprocessCall [lit "open"; path_absolute (gui_output_dir self)]) ~;;
         (fun g => (result_of (subprocess_call
                                 [lit "open"; path_absolute (gui_output_dir self)]), g))
         ~;; gret tt
       else gret tt)
      (fun e =>
         emit (StatusLabel (lit "Error: " ++ exn_str e) (lit "red")) ~;;
         emit (ShowError (lit "Error")
                 (lit "An error occurred:" ++ newline ++ newline ++ exn_str e)))
      (emit (GenerateButton true)).

End Form.

(** Desktops to run the form on: one where the user answers yes and
    [open] exists, one where the user answers yes and it does not. *)
#[local] Instance mac_desktop : Desktop := {|
  askyesno := fun _ _ => true;
  subprocess_call := fun _ => inr 0%Z
|}.

#[local] Instance desktop_without_open : Desktop := {|
  askyesno := fun _ _ => true;
  subprocess_call := fun _ => inl (Exn (lit "FileNotFoundError") (lit "open"))
|}.

(** ** Reading file names

    The order of strings ([a < b] on [str], by code point), and [int(s)]
    for a decimal numeral with an optional minus sign. *)

Fixpoint str_ltb (a b : str) : bool :=
  match a, b with
  | _, [] => false
  | [], _ :: _ => true
  | x :: a', y :: b' => (x <? y)%N || ((x =? y)%N && str_ltb a' b')
  end.

Definition unlit (s : str) : string := string_of_list_ascii (map ascii_of_N s).

Definition int_of_str (s : str) : option Z :=
  option_map Z.of_int (NilZero.int_of_string (unlit s)).

(** * Properties *)

(** ** Strings *)

Lemma lit_inj (a b : string) : lit a = lit b -> a = b.
Proof.
  unfold lit. revert b.
  induction a as [|x a IH]; intros [|y b]; simpl; try discriminate; auto.
  intros E. injection E as Exy Eab.
  f_equal; [ | now apply IH ].
  rewrite <- (ascii_N_embedding x), <- (ascii_N_embedding y). now rewrite Exy.
Qed.

(** The decimal text of an integer determines the integer. *)
Lemma str_of_Z_inj (a b : Z) : str_of_Z a = str_of_Z b -> a = b.
Proof.
  unfold str_of_Z. intros E. apply lit_inj in E.
  apply DecimalZ.to_int_inj.
  assert (S : forall d, NilZero.int_of_string (NilZero.string_of_int (Z.to_int d))
                        = Some (Z.to_int d)).
  { intros d. apply NilZero.isi; destruct d as [|p|p]; simpl; try discriminate;
      intros N; injection N; apply DecimalPos.Unsigned.to_uint_nonnil. }
  pose proof (S a) as Sa. rewrite E, S in Sa. now injection Sa.
Qed.

Lemma lstrip_nil_iff (s : str) : lstrip s = [] <-> forallb isspace s = true.
Proof.
  induction s as [|c s IH]; simpl; [ tauto | ].
  destruct (isspace c); simpl; [ exact IH | split; discriminate ].
Qed.

Lemma lstrip_keeps_non_space (s : str) :
  forallb isspace s = false -> forallb isspace (lstrip s) = false.
Proof.
  induction s as [|c s IH]; simpl; auto.
  destruct (isspace c) eqn:E; simpl; auto.
  now rewrite E.
Qed.

Lemma forallb_rev {A} (f : A -> bool) (l : list A) :
  forallb f (rev l) = forallb f l.
Proof.
  induction l as [|a l IH]; simpl; auto.
  rewrite forallb_app, IH. simpl. rewrite andb_true_r. apply andb_comm.
Qed.

(** [s.strip()] is empty exactly when [s] is empty or holds white space only. *)
Lemma strip_nil_iff (s : str) : strip s = [] <-> forallb isspace s = true.
Proof.
  unfold strip, rstrip. rewrite lstrip_nil_iff, forallb_rev.
  destruct (forallb isspace s) eqn:E.
  - rewrite <- (forallb_rev isspace s) in E. apply lstrip_nil_iff in E.
    rewrite E. tauto.
  - rewrite <- (forallb_rev isspace s) in E.
    apply lstrip_keeps_non_space in E. rewrite E. tauto.
Qed.

Lemma blank_line_falsy (s : str) :
  forallb isspace s = true -> truthy (strip s) = false.
Proof. intros E. apply strip_nil_iff in E. now rewrite E. Qed.

Lemma truthy_false_iff {A} (l : list A) : truthy l = false <-> l = [].
Proof. destruct l; simpl; split; congruence. Qed.

Section CleanProperties.
Context {RT : PyRuntime}.

Lemma clean_upc_filter (upc : str) : clean_upc upc = filter isdigit upc.
Proof.
  unfold clean_upc, join_empty.
  induction (filter isdigit upc) as [|c l IH]; simpl; congruence.
Qed.

Lemma clean_upc_app (a b : str) : clean_upc (a ++ b) = clean_upc a ++ clean_upc b.
Proof. rewrite !clean_upc_filter. apply filter_app. Qed.

(** C6. [clean_upc] is a total function with no error path; it keeps the
    digits of its argument, in order, and drops every other character:
    the empty string is cleaned to itself, a leading digit is kept and a
    leading non-digit is dropped; every character of the result is a digit;
    and the result is empty exactly when the argument holds no digit, as
    for ["abc-def"]. *)
Theorem clean_upc_keeps_digits_only :
  clean_upc [] = []
  /\ (forall (c : char) (upc : str),
         clean_upc (c :: upc) = if isdigit c then c :: clean_upc upc else clean_upc upc)
  /\ (forall upc : str, forallb isdigit (clean_upc upc) = true)
  /\ (forall upc : str, truthy (clean_upc upc) = existsb isdigit upc)
  /\ clean_upc (lit "abc-def") = []
  /\ clean_upc (lit " 0-12345 67890-5 ") = lit "012345678905".
Proof.
  repeat split.
  - intros c upc. rewrite !clean_upc_filter. simpl. now destruct (isdigit c).
  - intros upc. rewrite clean_upc_filter. apply forallb_forall.
    intros c Hc. now apply filter_In in Hc.
  - intros upc. rewrite clean_upc_filter.
    induction upc as [|c upc IH]; simpl; auto.
    destruct (isdigit c); simpl; auto.
Qed.

(** A cleaned string holds digits only, so cleaning keeps all of it. *)
Lemma clean_upc_of_digits (s : str) : forallb isdigit s = true -> clean_upc s = s.
Proof.
  rewrite clean_upc_filter.
  induction s as [|c s IH]; simpl; auto.
  destruct (isdigit c); simpl; [ | discriminate ].
  intros D. now rewrite IH.
Qed.

Lemma clean_upc_all_digits (upc : str) : forallb isdigit (clean_upc upc) = true.
Proof.
  rewrite clean_upc_filter. apply forallb_forall.
  intros c Hc. now apply filter_In in Hc.
Qed.

(** C7. [clean_upc] is idempotent. *)
Theorem clean_upc_idempotent (x : str) : clean_upc (clean_upc x) = clean_upc x.
Proof. apply clean_upc_of_digits, clean_upc_all_digits. Qed.

Lemma clean_upc_drops_non_digit (a b : str) (c : char) :
  isdigit c = false -> clean_upc (a ++ c :: b) = clean_upc (a ++ b).
Proof.
  intros E. rewrite !clean_upc_app. f_equal.
  rewrite !clean_upc_filter. simpl. now rewrite E.
Qed.

End CleanProperties.

(** ** Single barcodes *)

Lemma world_eta (w : World) : mkWorld (stdout w) (stderr w) (calls w) = w.
Proof. now destruct w. Qed.

Section BarcodeProperties.
Context {RT : PyRuntime} {BL : BarcodeLib}.
Variable self : UPCBarcodeGenerator.

(** The length test of [generate_barcode], spelled out. *)
Lemma length_test (cleaned_upc : str) :
  in_list (len cleaned_upc) [8; 12]%Z
  = ((len cleaned_upc =? 8) || (len cleaned_upc =? 12))%Z.
Proof. unfold in_list. simpl. now rewrite orb_false_r. Qed.

(** A run of [generate_barcode] in any world: the world only gains the
    calls made; the answer and the calls do not depend on it. *)
Lemma generate_barcode_run (upc : str) (index : Z) (w : World) :
  generate_barcode self upc index w
  = (outcome self upc index,
     mkWorld (stdout w) (stderr w) (calls w ++ outcome_calls self upc index)).
Proof.
  unfold outcome, outcome_calls, generate_barcode.
  destruct (negb (in_list (len (clean_upc upc)) [8; 12]%Z)).
  - unfold raise. simpl. now rewrite app_nil_r, world_eta.
  - unfold bind, extern, ret.
    destruct (len (clean_upc upc) =? 12)%Z; simpl;
      (destruct (get_barcode_class _) as [e|cls]; simpl;
       [ reflexivity | ]);
      (destruct (barcode_new cls _) as [e|obj]; simpl;
       [ now rewrite <- app_assoc | ]);
      (destruct (barcode_save obj _) as [e|path]; simpl;
       now rewrite <- !app_assoc).
Qed.

(** [generate_barcode] raises nothing but an [Exception]. *)
Lemma outcome_raises_exception (upc : str) (index : Z) (r : raised) :
  outcome self upc index = inl r -> exists e, r = Exc e.
Proof.
  unfold outcome, generate_barcode.
  destruct (negb (in_list (len (clean_upc upc)) [8; 12]%Z)).
  - unfold raise. simpl. intros E. injection E as <-. eauto.
  - unfold bind, extern, ret.
    destruct (len (clean_upc upc) =? 12)%Z; simpl;
      (destruct (get_barcode_class _) as [e|cls]; simpl;
       [ intros E; injection E as <-; eauto | ]);
      (destruct (barcode_new cls _) as [e|obj]; simpl;
       [ intros E; injection E as <-; eauto | ]);
      (destruct (barcode_save obj _) as [e|path]; simpl;
       intros E; [ injection E as <-; eauto | discriminate ]).
Qed.

(** The answer on a string of valid length. *)
Lemma outcome_valid (upc : str) (index : Z) :
  in_list (len (clean_upc upc)) [8; 12]%Z = true ->
  outcome self upc index
  = result_of
      (render_with (if (len (clean_upc upc) =? 12)%Z then lit "upca" else lit "upce")
         (clean_upc upc)
         (path_join (output_dir self) (format_04d index ++ lit "_" ++ clean_upc upc)))
  /\ class_requests (outcome_calls self upc index)
     = [if (len (clean_upc upc) =? 12)%Z then lit "upca" else lit "upce"].
Proof.
  intros V. unfold outcome, outcome_calls, generate_barcode, render_with.
  rewrite V. simpl negb. cbv iota.
  unfold bind, extern, ret.
  destruct (len (clean_upc upc) =? 12)%Z; simpl;
    (destruct (get_barcode_class _) as [e|cls]; simpl; [ now split | ]);
    (destruct (barcode_new cls _) as [e|obj]; simpl; [ now split | ]);
    (destruct (barcode_save obj _) as [e|path]; simpl; now split).
Qed.

(** The answer on a string of any other length. *)
Lemma generate_barcode_invalid (upc : str) (index : Z) (w : World) :
  in_list (len (clean_upc upc)) [8; 12]%Z = false ->
  generate_barcode self upc index w
  = (inl (Exc (ValueError (invalid_length_message (clean_upc upc)))), w).
Proof. intros V. unfold generate_barcode. now rewrite V. Qed.

(** C1. With 12 digits after cleaning, [generate_barcode] asks the library
    for the class [upca] and for no other, and answers what rendering with
    that class gives; with 8 digits, the same with [upce]; with any other
    number of digits it raises the invalid-length error and calls nothing:
    the world is left as it was. *)
Theorem generate_barcode_selects_renderer (upc : str) (index : Z) (w : World) :
  (len (clean_upc upc) = 12%Z ->
     fst (generate_barcode self upc index w)
     = result_of (render_with (lit "upca") (clean_upc upc)
                    (path_join (output_dir self)
                       (format_04d index ++ lit "_" ++ clean_upc upc)))
     /\ class_requests (calls (snd (generate_barcode self upc index w)))
        = class_requests (calls w) ++ [lit "upca"])
  /\ (len (clean_upc upc) = 8%Z ->
     fst (generate_barcode self upc index w)
     = result_of (render_with (lit "upce") (clean_upc upc)
                    (path_join (output_dir self)
                       (format_04d index ++ lit "_" ++ clean_upc upc)))
     /\ class_requests (calls (snd (generate_barcode self upc index w)))
        = class_requests (calls w) ++ [lit "upce"])
  /\ (len (clean_upc upc) <> 12%Z -> len (clean_upc upc) <> 8%Z ->
     generate_barcode self upc index w
     = (inl (Exc (ValueError (invalid_length_message (clean_upc upc)))), w)).
Proof.
  rewrite generate_barcode_run. cbn [fst snd calls].
  unfold class_requests at 1 3. rewrite flat_map_app.
  fold (class_requests (calls w)).
  fold (class_requests (outcome_calls self upc index)).
  split; [ | split ].
  - intros L.
    destruct (outcome_valid upc index) as [O C];
      [ rewrite length_test, L; reflexivity | ].
    rewrite O, C, L. now split.
  - intros L.
    destruct (outcome_valid upc index) as [O C];
      [ rewrite length_test, L; reflexivity | ].
    rewrite O, C, L. now split.
  - intros N12 N8. rewrite <- generate_barcode_run.
    apply generate_barcode_invalid. rewrite length_test.
    apply Z.eqb_neq in N12, N8. now rewrite N12, N8.
Qed.

End BarcodeProperties.

(** ** Batches *)

Section BatchProperties.
Context {RT : PyRuntime} {BL : BarcodeLib}.
Variable self : UPCBarcodeGenerator.

Lemma state_after_nil (st : BatchState) : state_after st [] = st.
Proof. destruct st. unfold state_after. simpl. now rewrite !app_nil_r. Qed.

Lemma world_after_nil (upc_list : list str) (w : World) :
  world_after self upc_list w [] = w.
Proof. destruct w. unfold world_after. simpl. now rewrite !app_nil_r. Qed.

Lemma state_after_app (st : BatchState) (a b : list Attempt) :
  state_after (state_after st a) b = state_after st (a ++ b).
Proof.
  unfold state_after, successes, failures. simpl.
  now rewrite !flat_map_app, !app_assoc.
Qed.

Lemma world_after_app (upc_list : list str) (w : World) (a b : list Attempt) :
  world_after self upc_list (world_after self upc_list w a) b
  = world_after self upc_list w (a ++ b).
Proof.
  unfold world_after, progress, failures, attempt_calls. simpl.
  now rewrite !flat_map_app, !app_assoc.
Qed.

(** One iteration: it never raises, and makes the attempt of its line, if any. *)
Lemma batch_step_run (upc_list : list str) (index : Z) (upc : str)
  (st : BatchState) (w : World) :
  batch_step self upc_list index upc st w
  = (inr (state_after st (attempts self index [upc])),
     world_after self upc_list w (attempts self index [upc])).
Proof.
  unfold batch_step. simpl attempts. rewrite app_nil_r.
  destruct (truthy (strip upc)); cbn [negb].
  - unfold try_except, bind. rewrite generate_barcode_run.
    destruct (outcome self (strip upc) index) as [r|path] eqn:O.
    + destruct (outcome_raises_exception _ _ _ _ O) as [e ->].
      unfold state_after, world_after, failures, successes, progress, attempt_calls.
      simpl. now rewrite !app_nil_r.
    + unfold state_after, world_after, failures, successes, progress, attempt_calls.
      simpl. now rewrite !app_nil_r.
  - now rewrite state_after_nil, world_after_nil.
Qed.

Lemma attempts_app (index : Z) (a b : list str) :
  attempts self index (a ++ b)
  = attempts self index a ++ attempts self (index + len a) b.
Proof.
  revert index. induction a as [|upc a IH]; intros index.
  - simpl. unfold len. simpl. now rewrite Z.add_0_r.
  - simpl. rewrite IH, <- app_assoc. do 3 f_equal.
    unfold len. simpl length. lia.
Qed.

(** The loop: it never raises, and makes the attempts of its lines in order. *)
Lemma batch_loop_run (upc_list : list str) (index : Z) (rest : list str)
  (st : BatchState) (w : World) :
  batch_loop self upc_list index rest st w
  = (inr (state_after st (attempts self index rest)),
     world_after self upc_list w (attempts self index rest)).
Proof.
  revert index st w. induction rest as [|upc rest IH]; intros index st w.
  - simpl. now rewrite state_after_nil, world_after_nil.
  - cbn [batch_loop]. unfold bind. rewrite batch_step_run, IH.
    rewrite state_after_app, world_after_app.
    change (upc :: rest) with ([upc] ++ rest).
    rewrite (attempts_app index [upc] rest).
    reflexivity.
Qed.

Lemma run_batch_run (upc_list : list str) (w : World) :
  run_batch self upc_list w
  = (inr {| generated_files := successes (attempts self 1 upc_list);
            errors := failures (attempts self 1 upc_list) |},
     world_after self upc_list w (attempts self 1 upc_list)).
Proof. unfold run_batch. now rewrite batch_loop_run. Qed.

Lemma generate_batch_run (upc_list : list str) (w : World) :
  exists w', generate_batch self upc_list w
             = (inr (successes (attempts self 1 upc_list)), w')
             /\ stderr w' = stderr w ++ failures (attempts self 1 upc_list)
             /\ calls w' = calls w ++ attempt_calls self (attempts self 1 upc_list).
Proof.
  unfold generate_batch, bind. rewrite run_batch_run. simpl.
  eexists. split; [ reflexivity | ]. now split.
Qed.

End BatchProperties.

(** ** The claims on single barcodes *)

Section BarcodeClaims.
Context {RT : PyRuntime} {BL : BarcodeLib}.
Variable self : UPCBarcodeGenerator.

(** A path [generate_barcode] returns is the library's answer to saving
    under the directory, the formatted index, an underscore and the digits. *)
Lemma success_is_rendered (upc : str) (index : Z) (path : str) :
  outcome self upc index = inr path ->
  exists name,
    render_with name (clean_upc upc)
      (path_join (output_dir self) (format_04d index ++ lit "_" ++ clean_upc upc))
    = inr path.
Proof.
  intros O.
  destruct (in_list (len (clean_upc upc)) [8; 12]%Z) eqn:V.
  - destruct (outcome_valid self upc index V) as [R _].
    rewrite O in R. eexists.
    destruct (render_with _ _ _) as [e|p] eqn:A in R; simpl in R;
      [ discriminate | ].
    injection R as ->. exact A.
  - pose proof (generate_barcode_invalid self upc index empty_world V) as G.
    unfold outcome in O. rewrite G in O. discriminate.
Qed.

(** C2. When the cleaned string has neither 8 nor 12 digits,
    [generate_barcode] raises the invalid-length [ValueError], whose text
    holds the number of digits in decimal (the number can be read back
    from the text), and leaves the world as it was.  The batch over the
    single line ["1234567"] collects exactly one error, which names 7
    digits, writes it to the error stream, calls the library not at all
    and returns no file. *)
Theorem invalid_length_reports_count :
  (forall (upc : str) (index : Z) (w : World),
      len (clean_upc upc) <> 8%Z -> len (clean_upc upc) <> 12%Z ->
      generate_barcode self upc index w
      = (inl (Exc (ValueError
                    (lit "Invalid UPC length: " ++ str_of_Z (len (clean_upc upc))
                         ++ lit " digits. Must be 8 or 12 digits."))), w)
      /\ forall n : Z,
          lit "Invalid UPC length: " ++ str_of_Z n
              ++ lit " digits. Must be 8 or 12 digits."
          = invalid_length_message (clean_upc upc) ->
          n = len (clean_upc upc))
  /\ (forall w : World,
        exists w',
          run_batch self [lit "1234567"] w
          = (inr {| generated_files := [];
                    errors := [ballot_x ++ lit " Error generating barcode for '1234567': Invalid UPC length: 7 digits. Must be 8 or 12 digits."] |},
             w')
          /\ stderr w'
             = stderr w ++ [ballot_x ++ lit " Error generating barcode for '1234567': Invalid UPC length: 7 digits. Must be 8 or 12 digits."]
          /\ calls w' = calls w
          /\ fst (generate_batch self [lit "1234567"] w) = inr []).
Proof.
  split.
  - intros upc index w N8 N12. split.
    + apply generate_barcode_invalid. rewrite length_test.
      apply Z.eqb_neq in N8, N12. now rewrite N8, N12.
    + intros n E. unfold invalid_length_message in E.
      apply app_inv_head in E. apply app_inv_tail in E.
      now apply str_of_Z_inj.
  - intros w. eexists. rewrite run_batch_run. split; [ reflexivity | ].
    unfold generate_batch, bind. rewrite run_batch_run.
    repeat split; simpl; now rewrite ?app_nil_r.
Qed.

(** C9. [generate_barcode] cleans its own argument: cleaning the argument
    beforehand changes nothing, two arguments with the same digits are
    treated alike, and so a character that is not a digit, inserted
    anywhere, changes neither the answer nor the world. *)
Theorem generate_barcode_cleans_argument (upc : str) (index : Z) (w : World) :
  generate_barcode self upc index w
  = generate_barcode self (clean_upc upc) index w
  /\ (forall other : str,
         clean_upc other = clean_upc upc ->
         generate_barcode self other index w = generate_barcode self upc index w)
  /\ (forall (a b : str) (c : char),
         upc = a ++ b -> isdigit c = false ->
         generate_barcode self (a ++ c :: b) index w
         = generate_barcode self upc index w).
Proof.
  assert (D : forall other : str,
             clean_upc other = clean_upc upc ->
             generate_barcode self other index w = generate_barcode self upc index w).
  { intros other E. unfold generate_barcode. now rewrite E. }
  repeat split.
  - symmetry. apply D. apply clean_upc_of_digits, clean_upc_all_digits.
  - exact D.
  - intros a b c -> Hc. apply D. now apply clean_upc_drops_non_digit.
Qed.

End BarcodeClaims.

(** ** The claims on batches *)

Section BatchClaims.
Context {RT : PyRuntime} {BL : BarcodeLib}.
Variable self : UPCBarcodeGenerator.

Lemma truthy_strip (upc : str) : truthy (strip upc) = negb (forallb isspace upc).
Proof.
  destruct (forallb isspace upc) eqn:E.
  - now apply blank_line_falsy.
  - destruct (truthy (strip upc)) eqn:T; auto.
    apply truthy_false_iff, strip_nil_iff in T. congruence.
Qed.

(** Every attempt is a line of the list that is not blank, at its own
    position, with the answer of [generate_barcode] for it. *)
Lemma attempts_sound (index : Z) (upc_list : list str) :
  Forall (fun t =>
            (index <= position t)%Z
            /\ nth_error upc_list (Z.to_nat (position t - index)) = Some (line t)
            /\ truthy (strip (line t)) = true
            /\ answer t = outcome self (strip (line t)) (position t))
         (attempts self index upc_list).
Proof.
  revert index. induction upc_list as [|upc rest IH]; intros index; simpl.
  - constructor.
  - apply Forall_app. split.
    + destruct (truthy (strip upc)) eqn:T; constructor; [ | constructor ].
      simpl. rewrite Z.sub_diag. simpl. repeat split; auto. lia.
    + eapply Forall_impl; [ | apply IH ].
      intros t (P & N & T & A). repeat split; auto; try lia.
      replace (Z.to_nat (position t - index))
        with (S (Z.to_nat (position t - (index + 1)))) by lia.
      exact N.
Qed.

(** The positions of the attempts increase strictly. *)
Lemma attempts_sorted (index : Z) (upc_list : list str) :
  StronglySorted Z.lt (map position (attempts self index upc_list)).
Proof.
  revert index. induction upc_list as [|upc rest IH]; intros index; simpl.
  - constructor.
  - assert (L : Forall (Z.lt index) (map position (attempts self (index + 1) rest))).
    { apply Forall_map. eapply Forall_impl; [ | apply attempts_sound ].
      intros t (P & _). simpl in P. lia. }
    destruct (truthy (strip upc)); simpl; [ constructor | ]; auto.
Qed.

Lemma sorted_filter {A} (f : A -> Z) (keep : A -> bool) (l : list A) :
  StronglySorted Z.lt (map f l) -> StronglySorted Z.lt (map f (filter keep l)).
Proof.
  induction l as [|a l IH]; simpl; intros S; auto.
  inversion S as [|x xs S' F]; subst.
  destruct (keep a); simpl; auto.
  constructor; auto.
  rewrite Forall_forall in *. intros z Hz.
  apply in_map_iff in Hz. destruct Hz as (b & <- & Hb).
  apply filter_In in Hb. apply F, in_map, Hb.
Qed.

Lemma successes_none (a : list Attempt) :
  Forall (fun t => succeeded t = false) a -> successes a = [].
Proof.
  induction 1 as [|t a T _ IH]; simpl; auto.
  unfold succeeded in T. rewrite IH. now destruct (answer t).
Qed.

(** Each attempt leaves exactly one entry, a file or an error. *)
Lemma attempts_counted (index : Z) (upc_list : list str) :
  length (successes (attempts self index upc_list))
  + length (failures (attempts self index upc_list))
  = length (attempts self index upc_list).
Proof.
  pose proof (attempts_sound index upc_list) as S.
  induction S as [|t a (_ & _ & _ & A) _ IH]; simpl; auto.
  rewrite !length_app.
  destruct (answer t) as [r|path] eqn:E; simpl.
  - symmetry in A.
    destruct (outcome_raises_exception _ _ _ _ A) as [e ->]. simpl. lia.
  - lia.
Qed.

Lemma attempts_length (index : Z) (upc_list : list str) :
  length (attempts self index upc_list)
  = length (filter (fun upc => negb (forallb isspace upc)) upc_list).
Proof.
  revert index. induction upc_list as [|upc rest IH]; intros index; simpl; auto.
  rewrite length_app, IH, truthy_strip.
  now destruct (negb (forallb isspace upc)).
Qed.

(** A rendering that succeeds: the answer and the three calls made. *)
Lemma outcome_rendered (upc : str) (index : Z) (path : str) :
  in_list (len (clean_upc upc)) [8; 12]%Z = true ->
  render_with (if (len (clean_upc upc) =? 12)%Z then lit "upca" else lit "upce")
    (clean_upc upc)
    (path_join (output_dir self) (format_04d index ++ lit "_" ++ clean_upc upc))
  = inr path ->
  outcome self upc index = inr path
  /\ outcome_calls self upc index
     = [GetBarcodeClass (if (len (clean_upc upc) =? 12)%Z then lit "upca" else lit "upce");
        NewBarcode (clean_upc upc);
        Save (path_join (output_dir self) (format_04d index ++ lit "_" ++ clean_upc upc))].
Proof.
  intros V. unfold outcome, outcome_calls, generate_barcode, render_with.
  rewrite V. cbn [negb]. unfold bind, extern, ret.
  destruct (len (clean_upc upc) =? 12)%Z; simpl;
    (destruct (get_barcode_class _) as [e|cls]; simpl; [ discriminate | ]);
    (destruct (barcode_new cls _) as [e|obj]; simpl; [ discriminate | ]);
    intros ->; now split.
Qed.

(** The only file [generate_barcode] asks the library to save. *)
Lemma outcome_calls_save (upc : str) (index : Z) :
  Forall (eq (path_join (output_dir self)
                (format_04d index ++ lit "_" ++ clean_upc upc)))
         (save_requests (outcome_calls self upc index)).
Proof.
  unfold outcome_calls, generate_barcode.
  destruct (negb (in_list (len (clean_upc upc)) [8; 12]%Z)).
  - constructor.
  - unfold bind, extern, ret.
    destruct (len (clean_upc upc) =? 12)%Z; simpl;
      (destruct (get_barcode_class _) as [e|cls]; simpl; [ constructor | ]);
      (destruct (barcode_new cls _) as [e|obj]; simpl; [ constructor | ]);
      (destruct (barcode_save obj _) as [e|path]; simpl; repeat constructor).
Qed.

(** For indices 0 to 9999 the formatted index has exactly four characters. *)
Lemma format_04d_width (index : Z) :
  (0 <= index <= 9999)%Z -> length (format_04d index) = 4.
Proof.
  intros R.
  assert (T : forallb (fun n => length (format_04d (Z.of_nat n)) =? 4)
                (seq 0 (100 * 100))
              = true) by (vm_compute; reflexivity).
  rewrite forallb_forall in T.
  specialize (T (Z.to_nat index)).
  rewrite Z2Nat.id in T by lia.
  apply Nat.eqb_eq, T, in_seq. lia.
Qed.

(** C3. The path under which an item is saved is the output directory
    joined with the file name made of the index formatted with [04d]
    (the decimal index, left-padded with zeros to four characters), an
    underscore and the cleaned digits; the index is the 1-based position
    of the line in the list as given, blank lines counted: every path the
    batch asks the library to save is that of a line [n] (0-based) under
    index [n + 1], and every file it returns is the library's answer to
    such a request.  For the list ["123456789012"; ""; "12345678"],
    when the library renders both codes, the batch saves exactly
    [0001_123456789012] and [0003_12345678], returns the two files and
    collects no error. *)
Theorem filenames_carry_list_position :
  (forall (upc_list : list str) (w : World),
      exists st w' made,
        run_batch self upc_list w = (inr st, w')
        /\ calls w' = calls w ++ made
        /\ Forall (fun requested =>
                     exists (n : nat) (upc : str),
                       nth_error upc_list n = Some upc
                       /\ requested
                          = path_join (output_dir self)
                              (format_04d (Z.of_nat n + 1) ++ lit "_"
                                 ++ clean_upc (strip upc)))
                  (save_requests made)
        /\ Forall (fun path =>
                     exists (n : nat) (upc name : str),
                       nth_error upc_list n = Some upc
                       /\ render_with name (clean_upc (strip upc))
                            (path_join (output_dir self)
                               (format_04d (Z.of_nat n + 1) ++ lit "_"
                                  ++ clean_upc (strip upc)))
                          = inr path)
                  (generated_files st))
  /\ (forall index : Z,
         (0 <= index)%Z ->
         format_04d index
         = repeat 48%N (4 - length (str_of_Z index)) ++ str_of_Z index)
  /\ (forall index : Z, (0 <= index <= 9999)%Z -> length (format_04d index) = 4)
  /\ (forall (w : World) (pa pe : str),
         render_with (lit "upca") (lit "123456789012")
           (path_join (output_dir self) (lit "0001_123456789012")) = inr pa ->
         render_with (lit "upce") (lit "12345678")
           (path_join (output_dir self) (lit "0003_12345678")) = inr pe ->
         exists w',
           run_batch self [lit "123456789012"; lit ""; lit "12345678"] w
           = (inr {| generated_files := [pa; pe]; errors := [] |}, w')
           /\ save_requests (calls w')
              = save_requests (calls w)
                  ++ [path_join (output_dir self) (lit "0001_123456789012");
                      path_join (output_dir self) (lit "0003_12345678")]
           /\ stderr w' = stderr w
           /\ fst (generate_batch self [lit "123456789012"; lit ""; lit "12345678"] w)
              = inr [pa; pe]).
Proof.
  split; [ | split; [ | split ] ].
  - intros upc_list w. rewrite run_batch_run.
    exists {| generated_files := successes (attempts self 1 upc_list);
              errors := failures (attempts self 1 upc_list) |},
           (world_after self upc_list w (attempts self 1 upc_list)),
           (attempt_calls self (attempts self 1 upc_list)).
    split; [ reflexivity | ]. split; [ reflexivity | ].
    cbn [generated_files].
    pose proof (attempts_sound 1 upc_list) as S.
    assert (Q : forall t : Attempt,
               (1 <= position t)%Z ->
               (Z.of_nat (Z.to_nat (position t - 1)) + 1)%Z = position t)
      by (intros; lia).
    split.
    + induction S as [|t a (P & N & _ & A) _ IH]; simpl; [ constructor | ].
      unfold save_requests in *. rewrite flat_map_app.
      apply Forall_app. split; auto.
      eapply Forall_impl; [ | apply outcome_calls_save ].
      intros requested <-.
      exists (Z.to_nat (position t - 1)), (line t). split; auto.
      now rewrite Q.
    + induction S as [|t a (P & N & _ & A) _ IH]; simpl; [ constructor | ].
      apply Forall_app. split; auto.
      destruct (answer t) as [r|path] eqn:E; constructor; [ | constructor ].
      symmetry in A. apply success_is_rendered in A. destruct A as [name R].
      exists (Z.to_nat (position t - 1)), (line t), name. split; auto.
      now rewrite Q.
  - intros index P. unfold format_04d.
    destruct (Z.ltb_spec index 0); [ lia | ].
    now rewrite Z.abs_eq by lia.
  - apply format_04d_width.
  - intros w pa pe Ra Re.
    destruct (outcome_rendered (strip (lit "123456789012")) 1 pa eq_refl Ra)
      as [Oa Ca].
    destruct (outcome_rendered (strip (lit "12345678")) 3 pe eq_refl Re)
      as [Oe Ce].
    assert (A : attempts self 1 [lit "123456789012"; lit ""; lit "12345678"]
                = [ {| position := 1; line := lit "123456789012"; answer := inr pa |};
                    {| position := 3; line := lit "12345678"; answer := inr pe |} ]).
    { cbn [attempts].
      change (truthy (strip (lit "123456789012"))) with true.
      change (truthy (strip (lit ""))) with false.
      change (truthy (strip (lit "12345678"))) with true.
      cbv iota. simpl Z.add. now rewrite Oa, Oe. }
    assert (C : attempt_calls self
                  [ {| position := 1; line := lit "123456789012"; answer := inr pa |};
                    {| position := 3; line := lit "12345678"; answer := inr pe |} ]
                = [GetBarcodeClass (lit "upca"); NewBarcode (lit "123456789012");
                   Save (path_join (output_dir self) (lit "0001_123456789012"));
                   GetBarcodeClass (lit "upce"); NewBarcode (lit "12345678");
                   Save (path_join (output_dir self) (lit "0003_12345678"))]).
    { unfold attempt_calls. cbn [flat_map position line].
      rewrite Ca, Ce. reflexivity. }
    unfold generate_batch, bind. rewrite run_batch_run, A.
    eexists. split; [ reflexivity | ].
    unfold world_after. cbn [calls stderr]. rewrite C.
    unfold save_requests. rewrite flat_map_app.
    repeat split. simpl. now rewrite app_nil_r.
Qed.

(** C4. A line that is empty or holds white space only is skipped: its
    iteration changes neither the two lists nor the world; around it,
    the lines before and the lines after are processed as they would be
    anyway, the latter at their own positions; and the files and errors of
    a batch are together as many as the lines that are not blank. *)
Theorem blank_lines_are_skipped :
  (forall (upc_list : list str) (index : Z) (blank : str) (st : BatchState) (w : World),
      forallb isspace blank = true ->
      batch_step self upc_list index blank st w = (inr st, w))
  /\ (forall (before after : list str) (blank : str) (w : World),
         forallb isspace blank = true ->
         run_batch self (before ++ blank :: after) w
         = (inr {| generated_files :=
                     successes (attempts self 1 before)
                       ++ successes (attempts self (len before + 2) after);
                   errors :=
                     failures (attempts self 1 before)
                       ++ failures (attempts self (len before + 2) after) |},
            world_after self (before ++ blank :: after) w
              (attempts self 1 before ++ attempts self (len before + 2) after)))
  /\ (forall (upc_list : list str) (w : World),
         exists st w',
           run_batch self upc_list w = (inr st, w')
           /\ length (generated_files st) + length (errors st)
              = length (filter (fun upc => negb (forallb isspace upc)) upc_list)).
Proof.
  split; [ | split ].
  - intros upc_list index blank st w B. unfold batch_step.
    now rewrite (blank_line_falsy _ B).
  - intros before after blank w B. rewrite run_batch_run.
    rewrite attempts_app. cbn [attempts].
    rewrite (blank_line_falsy _ B). cbn [app].
    replace (1 + len before + 1)%Z with (len before + 2)%Z by lia.
    unfold successes, failures. now rewrite !flat_map_app.
  - intros upc_list w. rewrite run_batch_run. eexists. eexists.
    split; [ reflexivity | ]. cbn [generated_files errors].
    now rewrite attempts_counted, attempts_length.
Qed.

(** C5. [generate_batch] never raises: each iteration of its loop returns
    normally whatever its line does, and the call returns the files of
    the attempts that succeeded, in order, after every line that is not
    blank has been attempted (its library calls are in the trace and its
    error, if any, on the error stream).  An item in the middle of a list
    does not change which lines before and after it are attempted; a
    batch in which every item fails returns the empty list. *)
Theorem generate_batch_isolates_failures :
  (forall (upc_list : list str) (index : Z) (upc : str) (st : BatchState) (w : World),
      exists st' w', batch_step self upc_list index upc st w = (inr st', w'))
  /\ (forall (upc_list : list str) (w : World),
         exists w',
           generate_batch self upc_list w
           = (inr (successes (attempts self 1 upc_list)), w')
           /\ stderr w' = stderr w ++ failures (attempts self 1 upc_list)
           /\ calls w' = calls w ++ attempt_calls self (attempts self 1 upc_list))
  /\ (forall (before after : list str) (item : str),
         attempts self 1 (before ++ item :: after)
         = attempts self 1 before
             ++ attempts self (len before + 1) [item]
             ++ attempts self (len before + 2) after)
  /\ (forall (upc_list : list str) (w : World),
         Forall (fun t => succeeded t = false) (attempts self 1 upc_list) ->
         fst (generate_batch self upc_list w) = inr [])
  /\ (forall w : World,
         fst (generate_batch self [lit "1234567"; lit "12-34"; lit "abc"] w) = inr []).
Proof.
  split; [ | split; [ | split; [ | split ] ] ].
  - intros. rewrite batch_step_run. eauto.
  - apply generate_batch_run.
  - intros before after item.
    change (item :: after) with ([item] ++ after).
    rewrite !attempts_app.
    replace (1 + len before)%Z with (len before + 1)%Z by lia.
    replace (len before + 1 + len [item])%Z with (len before + 2)%Z
      by (unfold len; simpl; lia).
    reflexivity.
  - intros upc_list w F.
    destruct (generate_batch_run self upc_list w) as (w' & E & _).
    rewrite E. cbn [fst]. f_equal. now apply successes_none.
  - intros w. unfold generate_batch, bind. rewrite run_batch_run. reflexivity.
Qed.

(** C10. The files [generate_batch] returns come from lines of the list
    in the order of the list: they are the answers to attempts whose
    positions increase strictly, each attempt being the line at its
    1-based position, saved under the file name that starts with that
    position formatted with [04d], which has exactly four characters as
    long as the list has at most 9999 lines. *)
Theorem generate_batch_preserves_order (upc_list : list str) (w : World) :
  exists (files : list str) (kept : list Attempt),
    fst (generate_batch self upc_list w) = inr files
    /\ Forall2 (fun t path =>
                  (1 <= position t)%Z
                  /\ nth_error upc_list (Z.to_nat (position t - 1)) = Some (line t)
                  /\ exists name,
                      render_with name (clean_upc (strip (line t)))
                        (path_join (output_dir self)
                           (format_04d (position t) ++ lit "_"
                              ++ clean_upc (strip (line t))))
                      = inr path)
               kept files
    /\ StronglySorted Z.lt (map position kept)
    /\ ((len upc_list <= 9999)%Z ->
        Forall (fun t => length (format_04d (position t)) = 4) kept).
Proof.
  exists (successes (attempts self 1 upc_list)),
         (filter succeeded (attempts self 1 upc_list)).
  split; [ | split; [ | split ] ].
  - destruct (generate_batch_run self upc_list w) as (w' & E & _). now rewrite E.
  - pose proof (attempts_sound 1 upc_list) as S.
    induction S as [|t a (P & N & _ & A) _ IH]; simpl; [ constructor | ].
    unfold succeeded at 1.
    destruct (answer t) as [r|path] eqn:E; simpl; auto.
    constructor; auto.
    symmetry in A. apply success_is_rendered in A. auto.
  - apply sorted_filter, attempts_sorted.
  - intros L. apply Forall_forall. intros t I. apply filter_In in I.
    destruct I as [I _].
    pose proof (attempts_sound 1 upc_list) as S.
    rewrite Forall_forall in S. destruct (S t I) as (P & N & _).
    assert (B : Z.to_nat (position t - 1) < length upc_list)
      by (apply nth_error_Some; congruence).
    apply format_04d_width. unfold len in L. lia.
Qed.

End BatchClaims.

(** ** The command line *)

Section CliProperties.
Context {RT : PyRuntime} {BL : BarcodeLib}.

(** Reading standard input: the stripped lines at end of input, or the
    interrupt, whatever had been read. *)
Lemma read_stdin_run (lines : list str) (interrupted : bool) (upc_list : list str)
  (w : World) :
  read_stdin lines interrupted upc_list w
  = (if interrupted then inl KeyboardInterrupt
     else inr (upc_list ++ map strip lines), w).
Proof.
  revert upc_list. induction lines as [|l lines IH]; intros upc_list; simpl.
  - rewrite app_nil_r. now destruct interrupted.
  - rewrite IH, <- app_assoc. reflexivity.
Qed.

(** The three ways [cli_mode] ends. *)
Lemma cli_mode_run (stdin : Stdin) (w : World) :
  cli_mode stdin w
  = if stdin_interrupted stdin
    then (inl (SystemExit 0),
          after_print (newline ++ newline ++ lit "Operation cancelled.") (opened w))
    else
      match stdin_lines stdin with
      | [] => (inl (SystemExit 1),
               after_print (lit "No UPC numbers provided.") (opened w))
      | _ :: _ =>
          (inr tt,
           snd (generate_batch default_generator (map strip (stdin_lines stdin))
                  (after_mkdir default_output_dir (opened w))))
      end.
Proof.
  destruct stdin as [lines interrupted].
  unfold cli_mode, bind, try_except_interrupt. cbn [stdin_lines stdin_interrupted].
  unfold print at 1 2 3 4 5. rewrite read_stdin_run. cbn [app].
  destruct interrupted; [ reflexivity | ].
  destruct lines as [|l lines]; [ reflexivity | ].
  cbn [map truthy negb]. unfold init, bind, extern, ret. cbn [result_of].
  fold (after_print (repeat 61%N 60) w).
  destruct (generate_batch_run default_generator (strip l :: map strip lines)
              (after_mkdir default_output_dir (opened w))) as (w' & E & _).
  unfold after_mkdir, opened, after_print in *. cbn [stdout stderr calls] in *.
  fold default_generator. now rewrite E.
Qed.

(** C8, as the code has it.  [cli_mode] ends with a non-zero status exactly
    when standard input ends without a single line: the status is then 1
    and nothing was called, neither the library nor the file system.
    When reading is interrupted it ends with status 0, again with nothing
    called, whether lines were read or not.  When standard input ends
    after at least one line, blank or not, it creates the output
    directory, runs the batch over the stripped lines and returns
    normally, which is status 0. *)
Theorem cli_mode_exit_status (stdin : Stdin) (w : World) :
  (exit_status (fst (cli_mode stdin w)) <> 0%Z
   <-> stdin_lines stdin = [] /\ stdin_interrupted stdin = false)
  /\ (stdin_interrupted stdin = false -> stdin_lines stdin = [] ->
      fst (cli_mode stdin w) = inl (SystemExit 1)
      /\ calls (snd (cli_mode stdin w)) = calls w)
  /\ (stdin_interrupted stdin = true ->
      fst (cli_mode stdin w) = inl (SystemExit 0)
      /\ calls (snd (cli_mode stdin w)) = calls w)
  /\ (stdin_interrupted stdin = false -> stdin_lines stdin <> [] ->
      fst (cli_mode stdin w) = inr tt
      /\ calls (snd (cli_mode stdin w))
         = calls w ++ Mkdir default_output_dir
             :: attempt_calls default_generator
                  (attempts default_generator 1 (map strip (stdin_lines stdin)))).
Proof.
  rewrite cli_mode_run.
  destruct stdin as [lines interrupted]. cbn [stdin_lines stdin_interrupted].
  destruct interrupted.
  - simpl. repeat split; try discriminate; try tauto.
    intros [_ F]. discriminate.
  - destruct lines as [|l lines].
    + simpl. repeat split; try discriminate; try tauto.
    + destruct (generate_batch_run default_generator (map strip (l :: lines))
                  (after_mkdir default_output_dir (opened w))) as (w' & E & _ & C).
      rewrite E. cbn [fst snd exit_status]. rewrite C. cbn [after_mkdir opened after_print calls].
      rewrite <- app_assoc. cbn [app].
      repeat split; try discriminate; try tauto.
      intros [F _]. discriminate.
Qed.

End CliProperties.

(** ** The claims at concrete inputs

    Each lemma applies a theorem above to the default generator, with the
    runtime and the renderer defined for running the program. *)

Lemma generate_barcode_selects_renderer_witness :
  class_requests
    (calls (snd (generate_barcode (RT := posix_runtime) (BL := png_renderer)
                   default_generator (lit "0 12345 67890 5") 1 empty_world)))
  = [lit "upca"]
  /\ fst (generate_barcode (RT := posix_runtime) (BL := png_renderer)
            default_generator (lit "0123-4565") 2 empty_world)
     = inr (lit "barcodes/0002_01234565.png")
  /\ generate_barcode (RT := posix_runtime) (BL := png_renderer)
       default_generator (lit "1234567") 3 empty_world
     = (inl (Exc (ValueError (lit "Invalid UPC length: 7 digits. Must be 8 or 12 digits."))),
        empty_world).
Proof.
  split; [ | split ].
  - destruct (generate_barcode_selects_renderer (RT := posix_runtime)
                (BL := png_renderer) default_generator (lit "0 12345 67890 5") 1
                empty_world) as (H12 & _ & _).
    exact (proj2 (H12 eq_refl)).
  - destruct (generate_barcode_selects_renderer (RT := posix_runtime)
                (BL := png_renderer) default_generator (lit "0123-4565") 2
                empty_world) as (_ & H8 & _).
    exact (proj1 (H8 eq_refl)).
  - destruct (generate_barcode_selects_renderer (RT := posix_runtime)
                (BL := png_renderer) default_generator (lit "1234567") 3
                empty_world) as (_ & _ & Hn).
    apply Hn; vm_compute; discriminate.
Defined.

Lemma invalid_length_reports_count_witness :
  generate_barcode (RT := posix_runtime) (BL := upca_only_renderer)
    default_generator (lit "12-34") 1 empty_world
  = (inl (Exc (ValueError (lit "Invalid UPC length: 4 digits. Must be 8 or 12 digits."))),
     empty_world).
Proof.
  destruct (invalid_length_reports_count (RT := posix_runtime)
              (BL := upca_only_renderer) default_generator) as [G _].
  destruct (G (lit "12-34") 1%Z empty_world) as [E _];
    [ vm_compute; discriminate | vm_compute; discriminate | exact E ].
Defined.

Lemma generate_barcode_cleans_argument_witness :
  generate_barcode (RT := posix_runtime) (BL := png_renderer)
    default_generator (lit "0123-4565") 7 empty_world
  = generate_barcode (RT := posix_runtime) (BL := png_renderer)
      default_generator (lit "01234565") 7 empty_world.
Proof.
  destruct (generate_barcode_cleans_argument (RT := posix_runtime)
              (BL := png_renderer) default_generator (lit "01234565") 7 empty_world)
    as (_ & _ & D).
  exact (D (lit "0123") (lit "4565") 45%N eq_refl eq_refl).
Defined.

Lemma filenames_carry_list_position_witness :
  exists w',
    run_batch (RT := posix_runtime) (BL := png_renderer) default_generator
      [lit "123456789012"; lit ""; lit "12345678"] empty_world
    = (inr {| generated_files := [lit "barcodes/0001_123456789012.png";
                                  lit "barcodes/0003_12345678.png"];
              errors := [] |}, w')
    /\ save_requests (calls w')
       = [lit "barcodes/0001_123456789012"; lit "barcodes/0003_12345678"].
Proof.
  destruct (filenames_carry_list_position (RT := posix_runtime)
              (BL := png_renderer) default_generator) as (_ & _ & _ & B).
  destruct (B empty_world (lit "barcodes/0001_123456789012.png")
              (lit "barcodes/0003_12345678.png") eq_refl eq_refl)
    as (w' & R & S & _).
  exists w'. split; [ exact R | exact S ].
Defined.

Lemma blank_lines_are_skipped_witness :
  batch_step (RT := posix_runtime) (BL := png_renderer) default_generator
    [lit "123456789012"; lit "   "] 2 (lit "   ")
    {| generated_files := [lit "barcodes/0001_123456789012.png"]; errors := [] |}
    empty_world
  = (inr {| generated_files := [lit "barcodes/0001_123456789012.png"]; errors := [] |},
     empty_world).
Proof.
  destruct (blank_lines_are_skipped (RT := posix_runtime) (BL := png_renderer)
              default_generator) as (S & _ & _).
  apply S. reflexivity.
Defined.

Lemma generate_batch_isolates_failures_witness :
  fst (generate_batch (RT := posix_runtime) (BL := upca_only_renderer)
         default_generator [lit "12345678"; lit "12-34"] empty_world)
  = inr [].
Proof.
  destruct (generate_batch_isolates_failures (RT := posix_runtime)
              (BL := upca_only_renderer) default_generator) as (_ & _ & _ & F & _).
  apply F. repeat constructor.
Defined.

Lemma generate_batch_preserves_order_witness :
  exists (files : list str) (kept : list Attempt),
    fst (generate_batch (RT := posix_runtime) (BL := upca_only_renderer)
           default_generator
           [lit "123456789012"; lit "12345678"; lit ""; lit "0 12345 67890 5"]
           empty_world)
    = inr files
    /\ StronglySorted Z.lt (map position kept)
    /\ Forall (fun t => length (format_04d (position t)) = 4) kept.
Proof.
  destruct (generate_batch_preserves_order (RT := posix_runtime)
              (BL := upca_only_renderer) default_generator
              [lit "123456789012"; lit "12345678"; lit ""; lit "0 12345 67890 5"]
              empty_world) as (files & kept & R & _ & S & W).
  exists files, kept. split; [ exact R | split; [ exact S | ] ].
  apply W. vm_compute. discriminate.
Defined.

Lemma cli_mode_exit_status_witness :
  fst (cli_mode (RT := posix_runtime) (BL := png_renderer)
         {| stdin_lines := [lit "123456789012" ++ newline; newline];
            stdin_interrupted := false |} empty_world)
  = inr tt
  /\ fst (cli_mode (RT := posix_runtime) (BL := png_renderer)
            {| stdin_lines := []; stdin_interrupted := false |} empty_world)
     = inl (SystemExit 1)
  /\ fst (cli_mode (RT := posix_runtime) (BL := png_renderer)
            {| stdin_lines := [lit "123456789012" ++ newline];
               stdin_interrupted := true |} empty_world)
     = inl (SystemExit 0).
Proof.
  split; [ | split ].
  - destruct (cli_mode_exit_status (RT := posix_runtime) (BL := png_renderer)
                {| stdin_lines := [lit "123456789012" ++ newline; newline];
                   stdin_interrupted := false |} empty_world) as (_ & _ & _ & R).
    apply R; [ reflexivity | discriminate ].
  - destruct (cli_mode_exit_status (RT := posix_runtime) (BL := png_renderer)
                {| stdin_lines := []; stdin_interrupted := false |} empty_world)
      as (_ & N & _ & _).
    apply N; reflexivity.
  - destruct (cli_mode_exit_status (RT := posix_runtime) (BL := png_renderer)
                {| stdin_lines := [lit "123456789012" ++ newline];
                   stdin_interrupted := true |} empty_world) as (_ & _ & I & _).
    apply I; reflexivity.
Defined.

(** C8, as the claim has it, fails: interrupted before any line is read,
    [cli_mode] has been given no input and ends with status 0. *)
Lemma cli_mode_cancelled_without_input :
  ~ (forall (stdin : Stdin) (w : World),
        exit_status (fst (cli_mode (RT := posix_runtime) (BL := png_renderer) stdin w))
        <> 0%Z
        <-> stdin_lines stdin = []).
Proof.
  intros claim.
  destruct (claim {| stdin_lines := []; stdin_interrupted := true |} empty_world)
    as [_ nonzero].
  now apply nonzero.
Qed.

(** * Further properties *)

(** ** Stripping twice *)

Lemma lstrip_app (a b : str) :
  lstrip (a ++ b) = if forallb isspace a then lstrip b else lstrip a ++ b.
Proof.
  induction a as [|c a IH]; simpl; auto.
  destruct (isspace c); simpl; auto.
Qed.

Lemma lstrip_idempotent (s : str) : lstrip (lstrip s) = lstrip s.
Proof.
  induction s as [|c s IH]; simpl; auto.
  destruct (isspace c) eqn:E; auto. simpl. now rewrite E.
Qed.

Lemma rstrip_cons (c : char) (s : str) :
  rstrip (c :: s)
  = if forallb isspace s then (if isspace c then [] else [c]) else c :: rstrip s.
Proof.
  unfold rstrip. simpl rev. rewrite lstrip_app, forallb_rev.
  destruct (forallb isspace s).
  - simpl. now destruct (isspace c).
  - now rewrite rev_app_distr.
Qed.

Lemma rstrip_idempotent (s : str) : rstrip (rstrip s) = rstrip s.
Proof. unfold rstrip. now rewrite rev_involutive, lstrip_idempotent. Qed.

(** Stripping the left end of a string with a clean right end keeps the
    right end clean. *)
Lemma rstrip_lstrip_fixed (s : str) : rstrip s = s -> rstrip (lstrip s) = lstrip s.
Proof.
  induction s as [|c s IH]; simpl; auto.
  intros F. destruct (isspace c) eqn:E; auto.
  apply IH. rewrite rstrip_cons, E in F.
  destruct (forallb isspace s); [ discriminate | congruence ].
Qed.

Lemma strip_idempotent (s : str) : strip (strip s) = strip s.
Proof.
  unfold strip.
  rewrite (rstrip_lstrip_fixed (rstrip s)) by apply rstrip_idempotent.
  apply lstrip_idempotent.
Qed.

(** ** Batches over stripped lines *)

Section StrippedBatches.
Context {RT : PyRuntime} {BL : BarcodeLib}.
Variable self : UPCBarcodeGenerator.

Lemma batch_step_stripped (upc_list : list str) (index : Z) (upc : str)
  (st : BatchState) (w : World) :
  batch_step self (map strip upc_list) index (strip upc) st w
  = batch_step self upc_list index upc st w.
Proof.
  unfold batch_step, generated_message, error_message, len.
  now rewrite !strip_idempotent, length_map.
Qed.

Lemma batch_loop_stripped (upc_list rest : list str) (index : Z)
  (st : BatchState) (w : World) :
  batch_loop self (map strip upc_list) index (map strip rest) st w
  = batch_loop self upc_list index rest st w.
Proof.
  revert index st w. induction rest as [|upc rest IH]; intros index st w; simpl; auto.
  unfold bind. rewrite batch_step_stripped.
  destruct (batch_step self upc_list index upc st w) as [[r|st'] w']; auto.
Qed.

Lemma generate_batch_stripped (upc_list : list str) (w : World) :
  generate_batch self (map strip upc_list) w = generate_batch self upc_list w.
Proof.
  unfold generate_batch, run_batch, bind.
  now rewrite batch_loop_stripped.
Qed.

End StrippedBatches.

(** ** The formatted index *)

Lemma unlit_lit (s : string) : unlit (lit s) = s.
Proof.
  unfold unlit, lit. rewrite map_map.
  rewrite (map_ext _ (fun a => a)) by apply ascii_N_embedding.
  now rewrite map_id, string_of_list_ascii_of_string.
Qed.

Lemma unlit_zeros (k : nat) (s : string) :
  unlit (repeat 48%N k ++ lit s) = Nat.iter k (String "0") s.
Proof.
  induction k as [|k IH]; simpl.
  - apply unlit_lit.
  - unfold unlit in *. simpl. now rewrite IH.
Qed.

Lemma uint_of_zeros (k : nat) (d : Decimal.uint) :
  NilEmpty.uint_of_string (Nat.iter k (String "0") (NilEmpty.string_of_uint d))
  = Some (Nat.iter k Decimal.D0 d).
Proof.
  induction k as [|k IH]; simpl.
  - apply NilEmpty.usu.
  - now rewrite IH.
Qed.

Lemma nilzero_uint_of_zeros (k : nat) (d : Decimal.uint) :
  d <> Decimal.Nil ->
  NilZero.uint_of_string (Nat.iter k (String "0") (NilEmpty.string_of_uint d))
  = Some (Nat.iter k Decimal.D0 d).
Proof.
  intros N. rewrite <- uint_of_zeros.
  destruct k; [ destruct d; [ congruence | reflexivity .. ] | reflexivity ].
Qed.

Lemma int_of_zeros (k : nat) (d : Decimal.uint) :
  d <> Decimal.Nil ->
  NilZero.int_of_string (Nat.iter k (String "0") (NilEmpty.string_of_uint d))
  = Some (Decimal.Pos (Nat.iter k Decimal.D0 d)).
Proof.
  intros N. destruct k as [|k].
  - destruct d; [ congruence | simpl; now rewrite NilEmpty.usu .. ].
  - change (Nat.iter (S k) (String "0") (NilEmpty.string_of_uint d))
      with (String "0" (Nat.iter k (String "0") (NilEmpty.string_of_uint d))).
    cbn [NilZero.int_of_string]. change ("0" =? "-")%char with false. cbv iota.
    change (String "0" (Nat.iter k (String "0") (NilEmpty.string_of_uint d)))
      with (Nat.iter (S k) (String "0") (NilEmpty.string_of_uint d)).
    now rewrite nilzero_uint_of_zeros.
Qed.

Lemma of_uint_zeros (k : nat) (d : Decimal.uint) :
  Z.of_uint (Nat.iter k Decimal.D0 d) = Z.of_uint d.
Proof. induction k as [|k IH]; simpl; auto. Qed.

Lemma nilzero_string_of_uint (d : Decimal.uint) :
  d <> Decimal.Nil -> NilZero.string_of_uint d = NilEmpty.string_of_uint d.
Proof. destruct d; [ congruence | reflexivity .. ]. Qed.

Lemma of_uint_to_uint (p : positive) : Z.of_uint (Pos.to_uint p) = Z.pos p.
Proof. exact (DecimalZ.of_to (Z.pos p)). Qed.

Lemma int_of_format_04d (z : Z) : int_of_str (format_04d z) = Some z.
Proof.
  destruct z as [|p|p].
  - reflexivity.
  - unfold format_04d, int_of_str, str_of_Z.
    change (Z.pos p <? 0)%Z with false. cbv iota.
    change (Z.to_int (Z.abs (Z.pos p))) with (Decimal.Pos (Pos.to_uint p)).
    cbn [NilZero.string_of_int app].
    pose proof (Unsigned.to_uint_nonnil p) as N.
    rewrite (nilzero_string_of_uint _ N), unlit_zeros, (int_of_zeros _ _ N).
    cbn [option_map Z.of_int]. now rewrite of_uint_zeros, of_uint_to_uint.
  - unfold format_04d, int_of_str, str_of_Z.
    change (Z.neg p <? 0)%Z with true. cbv iota.
    change (Z.to_int (Z.abs (Z.neg p))) with (Decimal.Pos (Pos.to_uint p)).
    cbn [NilZero.string_of_int].
    pose proof (Unsigned.to_uint_nonnil p) as N.
    rewrite (nilzero_string_of_uint _ N).
    change (lit "-" ++ ?x) with (45%N :: x).
    change (unlit (45%N :: ?x)) with (String "-" (unlit x)).
    rewrite unlit_zeros. cbn [NilZero.int_of_string].
    change ("-" =? "-")%char with true. cbv iota.
    rewrite (nilzero_uint_of_zeros _ _ N).
    cbn [option_map Z.of_int]. now rewrite of_uint_zeros, of_uint_to_uint.
Qed.

Lemma format_04d_inj (a b : Z) : format_04d a = format_04d b -> a = b.
Proof.
  intros E. pose proof (int_of_format_04d a) as Ra.
  rewrite E, int_of_format_04d in Ra. now injection Ra.
Qed.

(** X1. The index can be read back from its formatted form: [int] of
    [f"{z:04d}"] is [z], for every integer, padded or not, negative or
    not; so two indices are formatted alike only when they are equal. *)
Theorem format_04d_reads_back :
  (forall z : Z, int_of_str (format_04d z) = Some z)
  /\ (forall a b : Z, format_04d a = format_04d b -> a = b).
Proof. split; [ exact int_of_format_04d | exact format_04d_inj ]. Qed.

(** ** The order of file names *)

Lemma str_ltb_trans (a b c : str) :
  str_ltb a b = true -> str_ltb b c = true -> str_ltb a c = true.
Proof.
  revert b c. induction a as [|x a IH]; intros [|y b] [|z c]; simpl;
    try discriminate; auto.
  rewrite !orb_true_iff, !andb_true_iff, !N.ltb_lt, !N.eqb_eq.
  intros [L1|[E1 T1]] [L2|[E2 T2]].
  - left. lia.
  - left. lia.
  - left. lia.
  - right. split; [ congruence | eauto ].
Qed.

Lemma str_ltb_app (a b x y : str) :
  length a = length b -> str_ltb a b = true -> str_ltb (a ++ x) (b ++ y) = true.
Proof.
  revert b. induction a as [|c a IH]; intros [|d b]; simpl; try discriminate.
  intros L. injection L as L.
  rewrite !orb_true_iff, !andb_true_iff.
  intros [Lt|[E T]]; [ now left | right; auto ].
Qed.

Lemma format_04d_next (n : nat) :
  n < 100 * 100 - 1 ->
  str_ltb (format_04d (Z.of_nat n)) (format_04d (Z.of_nat (S n))) = true.
Proof.
  intros B.
  assert (T : forallb (fun n => str_ltb (format_04d (Z.of_nat n))
                                  (format_04d (Z.of_nat (S n))))
                (seq 0 (100 * 100 - 1))
              = true) by (vm_compute; reflexivity).
  rewrite forallb_forall in T. apply T, in_seq. lia.
Qed.

Lemma format_04d_increasing (i j : nat) :
  i < j -> j <= 100 * 100 - 1 ->
  str_ltb (format_04d (Z.of_nat i)) (format_04d (Z.of_nat j)) = true.
Proof.
  induction 1 as [|j L IH]; intros B.
  - apply format_04d_next. lia.
  - eapply str_ltb_trans; [ apply IH; lia | apply format_04d_next; lia ].
Qed.

(** X2. File names sort in the order of their indices, as the zero
    padding is meant to achieve, for indices up to 9999: the name of a
    lower index is the smaller string, whatever the digits after the
    underscore.  The padding is to four characters only: the name for
    index 10000 sorts before the name for index 9999. *)
Theorem file_names_sort_by_index :
  (forall (i j : Z) (digits_i digits_j : str),
      (0 <= i)%Z -> (i < j)%Z -> (j <= 9999)%Z ->
      str_ltb (format_04d i ++ lit "_" ++ digits_i)
              (format_04d j ++ lit "_" ++ digits_j) = true)
  /\ (forall digits_a digits_b : str,
         str_ltb (format_04d 10000 ++ lit "_" ++ digits_a)
                 (format_04d 9999 ++ lit "_" ++ digits_b) = true).
Proof.
  split.
  - intros i j di dj P L B. apply str_ltb_app.
    + rewrite !format_04d_width by lia. reflexivity.
    + rewrite <- (Z2Nat.id i), <- (Z2Nat.id j) by lia.
      apply format_04d_increasing; lia.
  - intros da db. reflexivity.
Qed.

(** ** More on batches *)

Lemma split_at_first {A} (x : A) (a a' b b' : list A) :
  ~ In x a -> ~ In x a' -> a ++ x :: b = a' ++ x :: b' -> a = a'.
Proof.
  revert a'. induction a as [|y a IH]; intros [|y' a'] Na Na' E; simpl in *.
  - reflexivity.
  - injection E as E _. subst. tauto.
  - injection E as E _. subst. tauto.
  - injection E as E1 E2. subst. f_equal. apply IH; tauto.
Qed.

Lemma decimal_digits (d : Decimal.uint) :
  Forall (fun c => c <> 95%N) (lit (NilEmpty.string_of_uint d)).
Proof. induction d; simpl; constructor; auto; discriminate. Qed.

(** The formatted form of a non-negative index holds no underscore. *)
Lemma format_04d_no_underscore (z : Z) : (0 <= z)%Z -> ~ In 95%N (format_04d z).
Proof.
  intros P I. destruct z as [|p|p]; [ | | lia ].
  - vm_compute in I. intuition discriminate.
  - unfold format_04d, str_of_Z in I.
    change (Z.pos p <? 0)%Z with false in I. cbv iota in I.
    change (Z.to_int (Z.abs (Z.pos p))) with (Decimal.Pos (Pos.to_uint p)) in I.
    cbn [NilZero.string_of_int app] in I.
    rewrite (nilzero_string_of_uint _ (Unsigned.to_uint_nonnil p)) in I.
    apply in_app_or in I. destruct I as [I|I].
    + apply repeat_spec in I. discriminate.
    + pose proof (decimal_digits (Pos.to_uint p)) as D.
      rewrite Forall_forall in D. now apply (D _ I).
Qed.

Section MoreBatchProperties.
Context {RT : PyRuntime} {BL : BarcodeLib}.
Variable self : UPCBarcodeGenerator.

(** Digits hold no underscore. *)
Lemma clean_upc_no_underscore (upc : str) : ~ In 95%N (clean_upc upc).
Proof.
  rewrite clean_upc_filter. intros I. apply filter_In in I.
  destruct I as [_ D]. discriminate.
Qed.

(** The file name of an item determines its index. *)
Lemma file_name_index (i j : Z) (a b : str) :
  (0 <= i)%Z -> (0 <= j)%Z ->
  format_04d i ++ lit "_" ++ clean_upc a = format_04d j ++ lit "_" ++ clean_upc b ->
  i = j.
Proof.
  intros Pi Pj E.
  assert (F : format_04d i = format_04d j).
  { eapply split_at_first; [ | | exact E ]; now apply format_04d_no_underscore. }
  now apply format_04d_inj.
Qed.

(** [generate_barcode] asks the library to save at most once. *)
Lemma outcome_calls_save_once (upc : str) (index : Z) :
  save_requests (outcome_calls self upc index) = []
  \/ save_requests (outcome_calls self upc index)
     = [path_join (output_dir self) (format_04d index ++ lit "_" ++ clean_upc upc)].
Proof.
  unfold outcome_calls, generate_barcode.
  destruct (negb (in_list (len (clean_upc upc)) [8; 12]%Z)).
  - now left.
  - unfold bind, extern, ret.
    destruct (len (clean_upc upc) =? 12)%Z; simpl;
      (destruct (get_barcode_class _) as [e|cls]; simpl; [ now left | ]);
      (destruct (barcode_new cls _) as [e|obj]; simpl; [ now left | ]);
      (destruct (barcode_save obj _) as [e|path]; simpl; now right).
Qed.

Lemma outcome_calls_valid (upc : str) (index : Z) :
  Forall valid_call (outcome_calls self upc index).
Proof.
  unfold outcome_calls, generate_barcode.
  destruct (in_list (len (clean_upc upc)) [8; 12]%Z) eqn:V; cbn [negb].
  - assert (L : len (clean_upc upc) = 8%Z \/ len (clean_upc upc) = 12%Z).
    { rewrite length_test in V. apply orb_true_iff in V.
      destruct V as [V|V]; apply Z.eqb_eq in V; auto. }
    pose proof (clean_upc_all_digits upc) as D.
    unfold bind, extern, ret.
    destruct (len (clean_upc upc) =? 12)%Z; simpl;
      (destruct (get_barcode_class _) as [e|cls]; simpl;
       [ repeat (apply Forall_cons || apply Forall_nil); simpl; auto | ]);
      (destruct (barcode_new cls _) as [e|obj]; simpl;
       [ repeat (apply Forall_cons || apply Forall_nil); simpl; auto | ]);
      (destruct (barcode_save obj _) as [e|path]; simpl;
       repeat (apply Forall_cons || apply Forall_nil); simpl; auto).
  - constructor.
Qed.

Lemma outcome_calls_class (upc : str) (index : Z) :
  length (class_requests (outcome_calls self upc index))
  = if in_list (len (clean_upc upc)) [8; 12]%Z then 1 else 0.
Proof.
  destruct (in_list (len (clean_upc upc)) [8; 12]%Z) eqn:V.
  - destruct (outcome_valid self upc index V) as [_ C]. now rewrite C.
  - unfold outcome_calls.
    now rewrite (generate_barcode_invalid self upc index empty_world V).
Qed.

(** The save requests of a batch, each with an index from [index] on. *)
Lemma batch_save_requests (index : Z) (upc_list : list str) :
  Forall (fun requested =>
            exists (n : nat) (upc : str),
              nth_error upc_list n = Some upc
              /\ requested
                 = path_join (output_dir self)
                     (format_04d (index + Z.of_nat n) ++ lit "_"
                        ++ clean_upc (strip upc)))
         (save_requests (attempt_calls self (attempts self index upc_list))).
Proof.
  pose proof (attempts_sound self index upc_list) as S.
  induction S as [|t a (P & N & _ & A) _ IH]; simpl; [ constructor | ].
  unfold save_requests in *. rewrite flat_map_app.
  apply Forall_app. split; auto.
  eapply Forall_impl; [ | apply outcome_calls_save ].
  intros requested <-.
  exists (Z.to_nat (position t - index)), (line t). split; auto.
  now replace (index + Z.of_nat (Z.to_nat (position t - index)))%Z
    with (position t) by lia.
Qed.

Lemma batch_requests_distinct (index : Z) (upc_list : list str) :
  (forall a b : str,
      path_join (output_dir self) a = path_join (output_dir self) b -> a = b) ->
  (0 <= index)%Z ->
  NoDup (save_requests (attempt_calls self (attempts self index upc_list))).
Proof.
  intros J. revert index.
  induction upc_list as [|upc rest IH]; intros index P; [ constructor | ].
  cbn [attempts]. unfold attempt_calls, save_requests in *.
  rewrite !flat_map_app.
  assert (T : NoDup (flat_map
                       (fun c => match c with Save path => [path] | _ => [] end)
                       (flat_map
                          (fun t => outcome_calls self (strip (line t)) (position t))
                          (attempts self (index + 1) rest))))
    by (apply IH; lia).
  destruct (truthy (strip upc)); [ | exact T ].
  cbn [flat_map position line]. rewrite app_nil_r.
  destruct (outcome_calls_save_once (strip upc) index) as [E|E];
    unfold save_requests in E; rewrite E; [ exact T | ].
  cbn [app]. constructor; [ | exact T ].
  intros I.
  pose proof (batch_save_requests (index + 1) rest) as R.
  unfold attempt_calls, save_requests in R.
  rewrite Forall_forall in R. destruct (R _ I) as (n & u & _ & Q).
  apply J, file_name_index in Q; lia.
Qed.

(** X3. White space around a line changes nothing: two lists whose
    lines agree once stripped give the same files, the same output on
    both streams and the same library calls. *)
Theorem generate_batch_ignores_surrounding_space
  (upc_list other : list str) (w : World) :
  map strip upc_list = map strip other ->
  generate_batch self upc_list w = generate_batch self other w.
Proof.
  intros E.
  rewrite <- (generate_batch_stripped self upc_list),
          <- (generate_batch_stripped self other).
  now rewrite E.
Qed.

(** X4. The library is asked for the classes [upca] and [upce] only and
    is given codes of 8 or 12 digits only; [generate_batch] creates no
    directory.  A line reaches the library exactly when it is not blank
    and has 8 or 12 digits: the class requests are as many as those lines. *)
Theorem library_gets_valid_codes_only (upc_list : list str) (w : World) :
  exists (files : list str) (w' : World) (made : list call),
    generate_batch self upc_list w = (inr files, w')
    /\ calls w' = calls w ++ made
    /\ Forall (fun c =>
                 match c with
                 | Mkdir _ => False
                 | GetBarcodeClass name => name = lit "upca" \/ name = lit "upce"
                 | NewBarcode code =>
                     forallb isdigit code = true
                     /\ (len code = 8%Z \/ len code = 12%Z)
                 | Save _ => True
                 end) made
    /\ length (class_requests made)
       = length (filter (fun upc =>
                           truthy (strip upc)
                           && in_list (len (clean_upc (strip upc))) [8; 12]%Z)
                        upc_list).
Proof.
  destruct (generate_batch_run self upc_list w) as (w' & E & _ & C).
  exists (successes (attempts self 1 upc_list)), w',
         (attempt_calls self (attempts self 1 upc_list)).
  split; [ exact E | ]. split; [ exact C | ]. clear E C. split.
  - fold valid_call. unfold attempt_calls.
    induction (attempts self 1 upc_list) as [|t a IH]; simpl; [ constructor | ].
    apply Forall_app. split; auto. apply outcome_calls_valid.
  - generalize 1%Z. induction upc_list as [|upc rest IH]; intros index; auto.
    cbn [attempts filter]. unfold attempt_calls, class_requests in *.
    rewrite !flat_map_app, length_app, IH.
    destruct (truthy (strip upc)); cbn [flat_map position line andb app]; auto.
    rewrite app_nil_r.
    pose proof (outcome_calls_class (strip upc) index) as K.
    unfold class_requests in K. rewrite K.
    now destruct (in_list (len (clean_upc (strip upc))) [8; 12]%Z).
Qed.

(** X5. No two items of a batch are saved under the same path, as long
    as joining the output directory with different file names gives
    different paths: within a batch no item overwrites another. *)
Theorem batch_file_names_distinct (upc_list : list str) (w : World) :
  (forall a b : str,
      path_join (output_dir self) a = path_join (output_dir self) b -> a = b) ->
  exists (files : list str) (w' : World) (made : list call),
    generate_batch self upc_list w = (inr files, w')
    /\ calls w' = calls w ++ made
    /\ NoDup (save_requests made).
Proof.
  intros J.
  destruct (generate_batch_run self upc_list w) as (w' & E & _ & C).
  exists (successes (attempts self 1 upc_list)), w',
         (attempt_calls self (attempts self 1 upc_list)).
  split; [ exact E | ]. split; [ exact C | ].
  apply batch_requests_distinct; [ exact J | lia ].
Qed.

End MoreBatchProperties.

(** ** Output and blank input *)

Section OutputProperties.
Context {RT : PyRuntime} {BL : BarcodeLib}.

Lemma attempts_blank (self : UPCBarcodeGenerator) (index : Z) (upc_list : list str) :
  Forall (fun upc => forallb isspace upc = true) upc_list ->
  attempts self index upc_list = [].
Proof.
  intros B. revert index.
  induction B as [|upc rest H _ IH]; intros index; simpl; auto.
  now rewrite (blank_line_falsy _ H), IH.
Qed.

Lemma progress_shape (upc_list : list str) (a : list Attempt) :
  length (progress upc_list a) = length (successes a)
  /\ Forall (fun shown =>
               exists (index : Z) (upc : str),
                 shown = check_mark ++ lit " Generated " ++ str_of_Z index ++ lit "/"
                           ++ str_of_Z (len upc_list) ++ lit ": " ++ strip upc)
            (progress upc_list a).
Proof.
  unfold progress, successes.
  induction a as [|t a [L F]]; simpl; [ split; [ reflexivity | constructor ] | ].
  rewrite !length_app, L. split.
  - now destruct (answer t).
  - apply Forall_app. split; auto.
    destruct (answer t); constructor; [ | constructor ].
    exists (position t), (line t). reflexivity.
Qed.

(** X6. What a batch prints.  Standard error gets the collected errors,
    one line each; standard output gets one [Generated] line per file
    returned, then the summary, then the location.  The summary counts
    the errors as soon as there is one and only otherwise counts the
    files; files and errors together are as many as the lines that are
    not blank. *)
Theorem generate_batch_output (self : UPCBarcodeGenerator) (upc_list : list str)
  (w : World) :
  exists (files errs shown : list str) (w' w'' : World),
    run_batch self upc_list w = (inr {| generated_files := files; errors := errs |}, w')
    /\ generate_batch self upc_list w = (inr files, w'')
    /\ stderr w'' = stderr w ++ errs
    /\ stdout w''
       = stdout w ++ shown
           ++ [ if truthy errs
                then newline ++ warning_sign ++ lit " Completed with "
                       ++ str_of_Z (len errs) ++ lit " error(s)"
                else newline ++ check_mark ++ lit " Successfully generated "
                       ++ str_of_Z (len files) ++ lit " barcodes!";
                newline ++ lit "Barcodes saved to: " ++ path_absolute (output_dir self) ]
    /\ length shown = length files
    /\ Forall (fun text =>
                 exists (index : Z) (upc : str),
                   text = check_mark ++ lit " Generated " ++ str_of_Z index ++ lit "/"
                            ++ str_of_Z (len upc_list) ++ lit ": " ++ strip upc)
              shown
    /\ length files + length errs
       = length (filter (fun upc => negb (forallb isspace upc)) upc_list).
Proof.
  destruct (progress_shape upc_list (attempts self 1 upc_list)) as [L F].
  exists (successes (attempts self 1 upc_list)),
         (failures (attempts self 1 upc_list)),
         (progress upc_list (attempts self 1 upc_list)).
  unfold generate_batch, bind. rewrite run_batch_run.
  eexists. eexists. split; [ reflexivity | ]. split; [ reflexivity | ].
  cbn [stderr stdout world_after print summary_message errors generated_files].
  split; [ reflexivity | ]. split; [ now rewrite <- !app_assoc | ].
  split; [ exact L | ]. split; [ exact F | ].
  now rewrite attempts_counted, attempts_length.
Qed.

(** X7. Blank lines are input, though nothing comes of them.  A batch
    over blank lines only (or over no line) calls nothing, reports no
    error, prints that 0 barcodes were generated and returns no file;
    [cli_mode] given blank lines only does not take the no-input exit:
    it creates the output directory, runs that batch and returns normally. *)
Theorem blank_input_gives_empty_batch :
  (forall (self : UPCBarcodeGenerator) (upc_list : list str) (w : World),
      Forall (fun upc => forallb isspace upc = true) upc_list ->
      generate_batch self upc_list w
      = (inr [],
         mkWorld (stdout w
                    ++ [newline ++ check_mark ++ lit " Successfully generated 0 barcodes!";
                        newline ++ lit "Barcodes saved to: "
                          ++ path_absolute (output_dir self)])
                 (stderr w) (calls w)))
  /\ (forall (stdin : Stdin) (w : World),
         stdin_interrupted stdin = false ->
         stdin_lines stdin <> [] ->
         Forall (fun line => forallb isspace line = true) (stdin_lines stdin) ->
         fst (cli_mode stdin w) = inr tt
         /\ calls (snd (cli_mode stdin w)) = calls w ++ [Mkdir default_output_dir]
         /\ stderr (snd (cli_mode stdin w)) = stderr w).
Proof.
  assert (B : forall (self : UPCBarcodeGenerator) (upc_list : list str) (w : World),
             Forall (fun upc => forallb isspace upc = true) upc_list ->
             generate_batch self upc_list w
             = (inr [],
                mkWorld (stdout w
                           ++ [newline ++ check_mark
                                 ++ lit " Successfully generated 0 barcodes!";
                               newline ++ lit "Barcodes saved to: "
                                 ++ path_absolute (output_dir self)])
                        (stderr w) (calls w))).
  { intros self upc_list w H. unfold generate_batch, bind.
    rewrite run_batch_run, (attempts_blank self 1 upc_list H).
    cbn. now rewrite !app_nil_r, <- app_assoc. }
  split; [ exact B | ].
  intros [lines interrupted] w. cbn [stdin_lines stdin_interrupted].
  intros -> N H. rewrite cli_mode_run. cbn [stdin_lines stdin_interrupted].
  destruct lines as [|l lines]; [ congruence | ].
  rewrite generate_batch_stripped, (B _ _ _ H).
  repeat split.
Qed.

(** X8. In command-line mode a file is numbered by the line of standard
    input it comes from, blank lines counted.  When standard input ends
    after at least one line, [cli_mode] does what [generate_batch] does on
    the lines as read (stripping them first changes nothing), once the
    directory [barcodes] is made; every path it asks the library to save
    is [barcodes] joined with the number of an input line, an underscore
    and the digits of that line. *)
Theorem cli_mode_numbers_by_input_line (stdin : Stdin) (w : World) :
  stdin_interrupted stdin = false ->
  stdin_lines stdin <> [] ->
  cli_mode stdin w
  = (inr tt,
     snd (generate_batch default_generator (stdin_lines stdin)
            (after_mkdir default_output_dir (opened w))))
  /\ exists made : list call,
      calls (snd (cli_mode stdin w)) = calls w ++ Mkdir default_output_dir :: made
      /\ Forall (fun requested =>
                   exists (n : nat) (line : str),
                     nth_error (stdin_lines stdin) n = Some line
                     /\ requested
                        = path_join default_output_dir
                            (format_04d (Z.of_nat n + 1) ++ lit "_"
                               ++ clean_upc (strip line)))
                (save_requests made).
Proof.
  destruct stdin as [lines interrupted]. cbn [stdin_lines stdin_interrupted].
  intros -> N. rewrite cli_mode_run. cbn [stdin_lines stdin_interrupted].
  destruct lines as [|l lines]; [ congruence | ].
  rewrite generate_batch_stripped. split; [ reflexivity | ].
  destruct (generate_batch_run default_generator (l :: lines)
              (after_mkdir default_output_dir (opened w))) as (w' & E & _ & C).
  rewrite E. cbn [snd]. rewrite C.
  exists (attempt_calls default_generator (attempts default_generator 1 (l :: lines))).
  split.
  - cbn [after_mkdir opened after_print calls]. now rewrite <- app_assoc.
  - eapply Forall_impl; [ | apply batch_save_requests ].
    intros requested (n & u & H & ->). exists n, u. split; auto.
    now rewrite Z.add_comm.
Qed.

End OutputProperties.

(** ** The desktop form *)

Lemma split_on_blank (text : str) :
  forallb (forallb isspace) (split_on 10%N text) = forallb isspace text.
Proof.
  induction text as [|c text IH]; simpl; auto.
  destruct (N.eqb_spec c 10) as [->|N].
  - simpl. exact IH.
  - destruct (split_on 10%N text) as [|piece pieces]; simpl in *.
    + rewrite <- IH. now rewrite !andb_true_r.
    + rewrite <- IH. now rewrite andb_assoc.
Qed.

Lemma filter_not_blank_nil (pieces : list str) :
  filter (fun line => truthy (strip line)) pieces = []
  <-> forallb (forallb isspace) pieces = true.
Proof.
  induction pieces as [|x pieces IH]; simpl; [ tauto | ].
  rewrite truthy_strip.
  destruct (forallb isspace x); simpl; [ exact IH | split; discriminate ].
Qed.

(** The form has nothing to generate exactly when its text holds white
    space only. *)
Lemma gui_upc_list_nil_iff (text : str) :
  gui_upc_list text = [] <-> forallb isspace text = true.
Proof.
  unfold gui_upc_list. rewrite <- split_on_blank, <- filter_not_blank_nil.
  split; intros E.
  - now apply map_eq_nil in E.
  - now rewrite E.
Qed.


Section FormProperties.
Context {RT : PyRuntime} {BL : BarcodeLib} {DT : Desktop}.



(** X10. With a text box that is empty or holds white space only, the
    handler shows the "No Input" warning and does nothing else: it
    creates no directory, calls no library, prints nothing and leaves the
    button alone. *)
Theorem form_warns_on_blank_text (self : BarcodeGeneratorGUI) (text : str) (g : Gui) :
  forallb isspace text = true ->
  generate_barcodes self text g
  = (inr tt,
     mkGui (world g)
           (events g ++ [ShowWarning (lit "No Input")
                           (lit "Please paste UPC numbers first.")])).
Proof.
  intros B. apply gui_upc_list_nil_iff in B.
  unfold generate_barcodes. rewrite B. reflexivity.
Qed.

(** X11. With any other text the handler never raises and never shows the
    warning.  It disables the button, makes the output directory, runs
    the batch over the lines that are not blank, and reports success with
    the number of files returned, whatever happened to the single codes:
    their failures reach neither the status line nor a dialog.  The error
    status and dialog appear only when the user agrees to open the folder
    and starting [open] fails.  In every case the last thing done is to
    enable the button again. *)
Theorem form_reports_file_count (self : BarcodeGeneratorGUI) (text : str) (g : Gui) :
  forallb isspace text = false ->
  exists (files : list str) (w' : World),
    generate_batch {| output_dir := gui_output_dir self |} (gui_upc_list text)
      (after_mkdir (gui_output_dir self) (world g))
    = (inr files, w')
    /\ generate_barcodes self text g
       = (inr tt,
          mkGui w'
            (events g
               ++ [GenerateButton false;
                   StatusLabel (lit "Generating barcodes...") (lit "orange");
                   RootUpdate;
                   StatusLabel (check_mark ++ lit " Successfully generated "
                                  ++ str_of_Z (len files) ++ lit " barcodes!")
                               (lit "green");
                   ShowInfo (lit "Success") (success_info self files);
                   AskYesNo (lit "Open Folder")
                     (lit "Would you like to open the output folder?")]
               ++ (if askyesno (lit "Open Folder")
                        (lit "Would you like to open the output folder?")
                   then SubprocessCall [lit "open"; path_absolute (gui_output_dir self)]
                        :: match subprocess_call
                                   [lit "open"; path_absolute (gui_output_dir self)]
                           with
                           | inr _ => []
                           | inl e =>
                               [StatusLabel (lit "Error: " ++ exn_str e) (lit "red");
                                ShowError (lit "Error")
                                  (lit "An error occurred:" ++ newline ++ newline
                                     ++ exn_str e)]
                           end
                   else [])
               ++ [GenerateButton true])).
Proof.
  intros B.
  destruct (gui_upc_list text) as [|upc rest] eqn:L.
  { apply gui_upc_list_nil_iff in L. congruence. }
  destruct (generate_batch_run {| output_dir := gui_output_dir self |} (upc :: rest)
              (after_mkdir (gui_output_dir self) (world g))) as (w' & E & _).
  exists (successes (attempts {| output_dir := gui_output_dir self |} 1 (upc :: rest))), w'.
  split; [ exact E | ].
  unfold generate_barcodes. rewrite L. cbn [truthy negb].
  unfold gbind, emit, try_except_finally, lift, init, bind, extern, ret, gret.
  cbn [world events result_of].
  unfold after_mkdir in E. rewrite E.
  cbn [world events]. unfold success_status.
  destruct (askyesno _ _); cbn [world events];
    [ destruct (subprocess_call _) as [e|code]; cbn [result_of world events] | ];
    rewrite <- !app_assoc; reflexivity.
Qed.

End FormProperties.

(** ** The two modes side by side *)

Section TwoModes.
Context {RT : PyRuntime} {BL : BarcodeLib}.
Variable self : UPCBarcodeGenerator.



End TwoModes.

(** ** The further properties at concrete inputs *)

Lemma format_04d_reads_back_witness :
  int_of_str (format_04d 42) = Some 42%Z /\ (format_04d 7 = format_04d 7 -> 7 = 7)%Z.
Proof.
  destruct format_04d_reads_back as [R I].
  split; [ exact (R 42%Z) | exact (I 7%Z 7%Z) ].
Defined.

Lemma file_names_sort_by_index_witness :
  str_ltb (lit "0009_12345678") (lit "0010_123456789012") = true.
Proof.
  destruct file_names_sort_by_index as [S _].
  apply (S 9%Z 10%Z (lit "12345678") (lit "123456789012")); lia.
Defined.

Lemma generate_batch_ignores_surrounding_space_witness :
  generate_batch (RT := posix_runtime) (BL := png_renderer) default_generator
    [lit "  123456789012"; newline] empty_world
  = generate_batch (RT := posix_runtime) (BL := png_renderer) default_generator
      [lit "123456789012 "; lit ""] empty_world.
Proof.
  apply (generate_batch_ignores_surrounding_space (RT := posix_runtime)
           (BL := png_renderer) default_generator). reflexivity.
Defined.

Lemma batch_file_names_distinct_witness :
  exists (files : list str) (w' : World) (made : list call),
    generate_batch (RT := posix_runtime) (BL := png_renderer) default_generator
      [lit "12345678"; lit "12345678"] empty_world
    = (inr files, w')
    /\ calls w' = calls empty_world ++ made
    /\ NoDup (save_requests made).
Proof.
  apply (batch_file_names_distinct (RT := posix_runtime) (BL := png_renderer)
           default_generator).
  intros a b E. simpl in E. now injection E.
Defined.

Lemma blank_input_gives_empty_batch_witness :
  fst (generate_batch (RT := posix_runtime) (BL := png_renderer) default_generator
         [lit "  "; lit ""] empty_world)
  = inr []
  /\ calls (snd (cli_mode (RT := posix_runtime) (BL := png_renderer)
                   {| stdin_lines := [newline; lit "  " ++ newline];
                      stdin_interrupted := false |} empty_world))
     = [Mkdir default_output_dir].
Proof.
  destruct (blank_input_gives_empty_batch (RT := posix_runtime) (BL := png_renderer))
    as [B C].
  split.
  - rewrite (B default_generator [lit "  "; lit ""] empty_world); [ reflexivity | ].
    repeat constructor.
  - apply (C {| stdin_lines := [newline; lit "  " ++ newline];
                stdin_interrupted := false |} empty_world);
      [ reflexivity | discriminate | repeat constructor ].
Defined.

Lemma cli_mode_numbers_by_input_line_witness :
  cli_mode (RT := posix_runtime) (BL := png_renderer)
    {| stdin_lines := [newline; lit "12345678" ++ newline];
       stdin_interrupted := false |} empty_world
  = (inr tt,
     snd (generate_batch (RT := posix_runtime) (BL := png_renderer) default_generator
            [newline; lit "12345678" ++ newline]
            (after_mkdir default_output_dir (opened empty_world)))).
Proof.
  apply (cli_mode_numbers_by_input_line (RT := posix_runtime) (BL := png_renderer)
           {| stdin_lines := [newline; lit "12345678" ++ newline];
              stdin_interrupted := false |} empty_world);
    [ reflexivity | discriminate ].
Defined.

Lemma form_warns_on_blank_text_witness :
  generate_barcodes (RT := posix_runtime) (BL := png_renderer) (DT := mac_desktop)
    {| gui_output_dir := default_output_dir |} (lit "  " ++ newline)
    (mkGui empty_world [])
  = (inr tt,
     mkGui empty_world
       [ShowWarning (lit "No Input") (lit "Please paste UPC numbers first.")]).
Proof.
  apply (form_warns_on_blank_text (RT := posix_runtime) (BL := png_renderer)
           (DT := mac_desktop) {| gui_output_dir := default_output_dir |}
           (lit "  " ++ newline) (mkGui empty_world [])).
  reflexivity.
Defined.

Lemma form_reports_file_count_witness :
  exists (files : list str) (w' : World) (shown : list GuiEvent),
    generate_barcodes (RT := posix_runtime) (BL := png_renderer)
      (DT := desktop_without_open) {| gui_output_dir := default_output_dir |}
      (lit "123456789012" ++ newline ++ newline ++ lit "12-34" ++ newline)
      (mkGui empty_world [])
    = (inr tt, mkGui w' shown)
    /\ In (StatusLabel (check_mark ++ lit " Successfully generated "
                          ++ str_of_Z (len files) ++ lit " barcodes!") (lit "green"))
          shown.
Proof.
  destruct (form_reports_file_count (RT := posix_runtime) (BL := png_renderer)
              (DT := desktop_without_open) {| gui_output_dir := default_output_dir |}
              (lit "123456789012" ++ newline ++ newline ++ lit "12-34" ++ newline)
              (mkGui empty_world []) eq_refl) as (files & w' & _ & R).
  exists files, w'. eexists. split; [ exact R | ].
  cbn [events app]. auto 6 using in_eq, in_cons.
Defined.
